(** * ShiViz graph builder hosts and the Global visualization

    A shallow embedding of [js/graphBuilderHost.js] and
    [js/visualization/global.js].

    JavaScript numbers are IEEE-754 binary64 values; they are modelled by
    Rocq's primitive floats, which are binary64 with round-to-nearest-even,
    so [x / y], [x * y], [x - y] and [x < y] below compute what the script
    computes, including the infinities and NaN a division by zero yields.
    Array lengths and the counters derived from them are integers below
    2^32, on which binary64 arithmetic is exact; they are kept in [Z] and
    converted with [JS.of_Z] where the script mixes them with measured
    widths.

    An object used as a dictionary ([hiddenHosts = {}]) is modelled with
    what a plain object has: its own properties in creation order, the
    properties it inherits from [Object.prototype], the [__proto__] setter,
    and the order in which [Object.keys] lists own keys.  Host identities are
    the strings the script uses as keys. *)

From Stdlib Require Import ZArith QArith Qround String Ascii List Lia Floats DecimalString.
From stdpp Require Import gmap strings list sorting.

Set Warnings "-inexact-float,-clear-no-such-hyp".
#[local] Open Scope Z_scope.

(** ** JavaScript numbers *)

Module JS.

(** An integer as a Number (exact below 2^53 in magnitude). *)
Definition of_Z (z : Z) : float :=
  match z with
  | Z0 => 0%float
  | Zpos _ => PrimFloat.of_uint63 (Uint63.of_Z z)
  | Zneg _ => PrimFloat.opp (PrimFloat.of_uint63 (Uint63.of_Z (- z)))
  end.

(** [Math.floor]: NaN, the infinities and both zeros are returned as they
    are; a finite [m * 2^e] with [e >= 0] is already integral. *)
Definition Math_floor (x : float) : float :=
  match Prim2SF x with
  | S754_finite sign m e =>
      if 0 <=? e then x
      else
        let q := Z.pos m / 2 ^ (- e) in
        let r := Z.pos m mod 2 ^ (- e) in
        if sign
        then PrimFloat.opp (of_Z (if r =? 0 then q else q + 1))
        else of_Z q
  | _ => x
  end.

(** The integer a Number denotes, when it denotes one. *)
Definition integer_value (x : float) : option Z :=
  match Prim2SF x with
  | S754_zero _ => Some 0
  | S754_finite sign m e =>
      let sgn := if sign then (-1) else 1 in
      if 0 <=? e then Some (sgn * (Z.pos m * 2 ^ e))
      else if Z.pos m mod 2 ^ (- e) =? 0
           then Some (sgn * (Z.pos m / 2 ^ (- e)))
           else None
  | _ => None
  end.

(** [ToString] of a Number, as string concatenation applies it.  Integral
    values up to 2^53 in magnitude print in decimal, [-0] prints as [0], NaN
    and the infinities print by name.  The digits of a fractional value and
    of an integral value beyond 2^53 (where JavaScript prints the shortest
    digits that round-trip, and an exponent from 10^21 on) are not modelled:
    the empty string stands for them.  [HSVtoRGB] only converts results of
    [Math.floor]. *)
Definition Number_toString (x : float) : string :=
  match integer_value x with
  | Some z =>
      if (Z.abs z <=? 2 ^ 53)%Z then NilZero.string_of_int (Z.to_int z) else ""
  | None =>
      if PrimFloat.is_nan x then "NaN"
      else if PrimFloat.is_infinity x
           then (if PrimFloat.get_sign x then "-Infinity" else "Infinity")
           else ""
  end%string.

(** [x % 6] as the [switch] of [HSVtoRGB] reads it: the remainder takes the
    sign of the dividend and is exact on integral values; NaN and the
    infinities give NaN, which matches no [case]. *)
Definition rem6 (x : float) : option Z :=
  match integer_value x with
  | Some z => Some (Z.rem z 6)
  | None => None
  end.

End JS.

(** ** graphBuilderHost.js: the colour palette *)

Section Palette.

#[local] Open Scope float_scope.

(** [HSVtoRGB(h, s, v)] called with three numbers (the script never passes
    the single-object form, whose unpacking branch is therefore not
    taken).  When no [case] matches, [r], [g] and [b] stay [undefined] and
    [undefined * 255] is NaN. *)
Definition HSVtoRGB (h s v : float) : string :=
  let i := JS.Math_floor (h * 6) in
  let f := h * 6 - i in
  let p := v * (1 - s) in
  let q := v * (1 - f * s) in
  let t := v * (1 - (1 - f) * s) in
  let '(r, g, b) :=
    match JS.rem6 i with
    | Some 0%Z => (v, t, p)
    | Some 1%Z => (q, v, p)
    | Some 2%Z => (p, v, t)
    | Some 3%Z => (p, q, v)
    | Some 4%Z => (t, p, v)
    | Some 5%Z => (v, p, q)
    | _ => (nan, nan, nan)
    end in
  let r := JS.Math_floor (r * 255) in
  let g := JS.Math_floor (g * 255) in
  let b := JS.Math_floor (b * 255) in
  ("rgb(" ++ JS.Number_toString r ++ "," ++ JS.Number_toString g ++ ","
          ++ JS.Number_toString b ++ ")")%string.

(** The colour pushed for loop index [i]. *)
Definition palette_entry (i : nat) : string :=
  HSVtoRGB (JS.of_Z (Z.of_nat i) / 9 + 0.4) 0.4 0.8.

(** [for (var i = 9; i > 0; i--) GraphBuilderHost.colors.push(...)], started
    at index [i] on the array [colors]; [push] appends at the end. *)
Fixpoint fill_colors (i : nat) (colors : list string) : list string :=
  match i with
  | O => colors
  | S k => fill_colors k (colors ++ [palette_entry i])
  end.

(** [GraphBuilderHost.colors] once the script has been loaded: the empty
    array of line 65 filled by the loop of lines 93-94. *)
Definition GraphBuilderHost_colors : list string := fill_colors 9 [].

End Palette.

(** The palette as the specification words it, in exact rational
    arithmetic: hue [i/9 + 0.4], saturation [0.4], value [0.8], the six-sector
    conversion, each component cut to [floor (component * 255)]. *)
Module PaletteSpec.

#[local] Open Scope Q_scope.

Definition sector_rgb (h s v : Q) : Q * Q * Q :=
  let i := Qfloor (h * 6) in
  let f := h * 6 - inject_Z i in
  let p := v * (1 - s) in
  let q := v * (1 - f * s) in
  let t := v * (1 - (1 - f) * s) in
  match (i mod 6)%Z with
  | 0%Z => (v, t, p)
  | 1%Z => (q, v, p)
  | 2%Z => (p, v, t)
  | 3%Z => (p, q, v)
  | 4%Z => (t, p, v)
  | _ => (v, p, q)
  end.

Definition component (c : Q) : string :=
  NilZero.string_of_int (Z.to_int (Qfloor (c * 255))).

Definition rgb_string (h s v : Q) : string :=
  let '(r, g, b) := sector_rgb h s v in
  ("rgb(" ++ component r ++ "," ++ component g ++ "," ++ component b ++ ")")%string.

Definition hue (i : Z) : Q := inject_Z i / 9 + (4 # 10).

Definition palette : list string :=
  map (fun i => rgb_string (hue i) (4 # 10) (8 # 10)) [9; 8; 7; 6; 5; 4; 3; 2; 1]%Z.

End PaletteSpec.

(** ** Exceptions *)

Inductive js_error :=
| Exception (message : string)   (* [throw new Exception(message)] *)
| TypeError.                     (* a property read on [null] *)

Inductive result (A : Type) :=
| Ok (a : A)
| Throw (e : js_error).
Arguments Ok {A} a.
Arguments Throw {A} e.

(** ** Plain objects used as dictionaries *)

Module JSObject.

#[local] Open Scope string_scope.

(** An object created by [{}] whose properties are only ever given boolean
    values: its own properties, oldest first.  Its prototype is
    [Object.prototype]. *)
Definition object := list (string * bool).

(** [{}]. *)
Definition empty : object := [].

(** The properties every object inherits from [Object.prototype] in a
    browser.  Each holds a function, except [__proto__], an accessor that
    reads as the prototype itself: all are truthy. *)
Definition Object_prototype_properties : list string :=
  [ "constructor"; "__defineGetter__"; "__defineSetter__"; "hasOwnProperty";
    "__lookupGetter__"; "__lookupSetter__"; "isPrototypeOf";
    "propertyIsEnumerable"; "toString"; "valueOf"; "__proto__";
    "toLocaleString" ].

(** The own property [k], if there is one. *)
Fixpoint own (o : object) (k : string) : option bool :=
  match o with
  | [] => None
  | (k', v) :: o => if decide (k' = k) then Some v else own o k
  end.

(** Writing the own property [k]: an existing one keeps its place, a new one
    goes last. *)
Fixpoint put (k : string) (v : bool) (o : object) : object :=
  match o with
  | [] => [(k, v)]
  | (k', v') :: o => if decide (k' = k) then (k, v) :: o else (k', v') :: put k v o
  end.

(** [o[k] = v] for a boolean [v].  Assigning to [__proto__] runs the setter
    inherited from [Object.prototype], which ignores a value that is neither
    an object nor [null]: nothing changes.  Any other key becomes (or stays)
    an own property. *)
Definition set (k : string) (v : bool) (o : object) : object :=
  if decide (k = "__proto__") then o else put k v o.

(** Whether [o[k]] is truthy: the own property if there is one, else the
    inherited one, else [undefined]. *)
Definition truthy (o : object) (k : string) : bool :=
  match own o k with
  | Some v => v
  | None => bool_decide (k ∈ Object_prototype_properties)
  end.

(** The array index a key denotes: the canonical decimal string of an
    integer from 0 to 2^32 - 2. *)
Definition array_index (k : string) : option N :=
  match NilEmpty.uint_of_string k with
  | Some u =>
      let n := N.of_uint u in
      if String.eqb (NilZero.string_of_uint (N.to_uint n)) k && (n <? 4294967295)%N
      then Some n
      else None
  | None => None
  end.

Definition is_index (k : string) : Prop := is_Some (array_index k).

(** The order of two array indices. *)
Definition index_le (a b : string) : Prop :=
  match array_index a, array_index b with
  | Some m, Some n => (m <= n)%N
  | _, _ => True
  end.

#[export] Instance index_le_dec (a b : string) : Decision (index_le a b).
Proof.
  unfold index_le. destruct (array_index a), (array_index b); apply _.
Defined.

(** [Object.keys(o)]: the own keys that are array indices in ascending
    order, then the other own keys in creation order. *)
Definition keys (o : object) : list string :=
  merge_sort index_le (filter is_index o.*1)
  ++ filter (fun k => ~ is_index k) o.*1.

End JSObject.

(** ** graphBuilderHost.js: the constructor *)

Module Builder.

#[local] Open Scope float_scope.

(** The shapes the constructor puts on the builder's drawing surface. *)
Inductive shape :=
| rect (width height : float) (fill : string) (x y : float)
| line (x1 y1 x2 y2 : float).

(** What the constructor reads and writes besides the new object: the
    shared array [GraphBuilderHost.colors] (last element = top of the
    stack), the [disabled] attribute and the [background] of the [.add]
    button, and the children of [graphBuilder.getSVG()], first child
    first. *)
Record page := {
  colors : list string;
  add_disabled : bool;
  add_background : option string;
  svg : list shape
}.

(** What a host uses of a [GraphBuilderNode]: its circle and its lines, named
    by the number under which each is drawn. *)
Record GraphBuilderNode := {
  node_circle : nat;
  node_lines : list nat
}.

(** The fields assigned from line 12 on. *)
Record host_fields := {
  rx : float;
  x : float;
  color : string;
  nodes : list GraphBuilderNode;
  host_rect : shape;
  host_line : shape
}.

(** A [GraphBuilderHost] object: [graphBuilder] is always set, the other
    fields only when the constructor did not return at line 6. *)
Record GraphBuilderHost := {
  fields : option host_fields
}.

(** [new GraphBuilderHost(graphBuilder, hostNum)].  [last (colors pg)] is
    [None] exactly when [colors.length] is 0; otherwise it is the element
    [pop()] returns, and [removelast] is the array [pop()] leaves.
    [prependTo] puts the new shape in front of the surface's children.
    [css("background", undefined)] sets nothing. *)
Definition new_GraphBuilderHost (hostNum : float) (pg : page)
  : GraphBuilderHost * page :=
  match last (colors pg) with
  | None => ({| fields := None |}, pg)
  | Some top =>
      let disabled :=
        if (length (colors pg) =? 1)%nat then true else add_disabled pg in
      let rx := hostNum * 65 in
      let x := rx + 12.5 in
      let color := top in
      let colors' := removelast (colors pg) in
      let r := rect 25 25 color rx 0 in
      let l := line x 30 x 500 in
      ({| fields := Some {| rx := rx; x := x; color := color; nodes := [];
                            host_rect := r; host_line := l |} |},
       {| colors := colors';
          add_disabled := disabled;
          add_background :=
            match last colors' with
            | Some c => Some c
            | None => add_background pg
            end;
          svg := l :: r :: svg pg |})
  end.

(** The colour a host object holds, if it holds one. *)
Definition host_color (h : GraphBuilderHost) : option string :=
  color <$> fields h.

(** The shapes a host object has drawn: its line in front of its square. *)
Definition host_shapes (h : GraphBuilderHost) : list shape :=
  match fields h with
  | Some f => [host_line f; host_rect f]
  | None => []
  end.

(** Creating hosts number [first], [first + 1], ... one after the other,
    [n] times, keeping the objects created. *)
Fixpoint create_hosts (n : nat) (first : Z) (pg : page)
  : list GraphBuilderHost * page :=
  match n with
  | O => ([], pg)
  | S k =>
      let '(h, pg1) := new_GraphBuilderHost (JS.of_Z first) pg in
      let '(hs, pg2) := create_hosts k (first + 1)%Z pg1 in
      (h :: hs, pg2)
  end.

(** The page right after the script has been loaded, for a given state of
    the [.add] button and drawing surface. *)
Definition loaded_page (disabled : bool) (background : option string)
                       (surface : list shape) : page :=
  {| colors := GraphBuilderHost_colors;
     add_disabled := disabled;
     add_background := background;
     svg := surface |}.

(** *** addNode *)

(** [addNode(y, tmp)], with [node] the object [new GraphBuilderNode(...)]
    yields (that constructor is not in these files).  [this.nodes] is
    undefined on a host whose constructor returned at line 6, and [push] on it
    throws.  [convert()] and [bind()] belong to the graph builder. *)
Definition addNode (node : GraphBuilderNode) (h : GraphBuilderHost)
  : result (GraphBuilderNode * GraphBuilderHost) :=
  match fields h with
  | None => Throw TypeError
  | Some f =>
      Ok (node,
          {| fields := Some {| rx := rx f; x := x f; color := color f;
                               nodes := nodes f ++ [node];
                               host_rect := host_rect f;
                               host_line := host_line f |} |})
  end.

(** The nodes [ns] added one after the other. *)
Fixpoint addNodes (ns : list GraphBuilderNode) (h : GraphBuilderHost)
  : result GraphBuilderHost :=
  match ns with
  | [] => Ok h
  | node :: ns =>
      match addNode node h with
      | Ok (_, h) => addNodes ns h
      | Throw e => Throw e
      end
  end.

(** *** removeNode and removeAllNodes *)

Definition set_nodes (ns : list GraphBuilderNode) (h : host_fields) : host_fields :=
  {| rx := rx h; x := x h; color := color h; nodes := ns;
     host_rect := host_rect h; host_line := host_line h |}.

Section Removal.

(** [Array.remove(arr, x)] is called but not defined in these files: it is a
    parameter here.  Its second argument is any object; the two kinds that
    occur are nodes and hosts. *)
Variable Array_remove :
  list GraphBuilderNode -> GraphBuilderNode + host_fields -> list GraphBuilderNode.

(** [removeNode(node)] on the host [h], with [drawn] the circles and lines
    on the surface.  Line 52 passes [this], the host, not [node]. *)
Definition removeNode (h : host_fields) (node : GraphBuilderNode) (drawn : gset nat)
  : host_fields * gset nat :=
  let drawn := foldl (fun d l => d ∖ {[l]}) drawn (node_lines node) in
  let h := set_nodes (Array_remove (nodes h) (inr h)) h in
  let drawn := drawn ∖ {[node_circle node]} in
  (h, drawn).

(** The loop of [removeAllNodes] from index [i]; [this.nodes.length] is read
    again at every turn.  [None] when [fuel] turns do not finish it. *)
Fixpoint removeAllNodes_loop (fuel i : nat) (h : host_fields) (drawn : gset nat)
  : option (host_fields * gset nat) :=
  match fuel with
  | O => None
  | S fuel =>
      match nodes h !! i with
      | None => Some (h, drawn)
      | Some node =>
          let '(h, drawn) := removeNode h node drawn in
          removeAllNodes_loop fuel (S i) h drawn
      end
  end.

Definition removeAllNodes (fuel : nat) (h : host_fields) (drawn : gset nat)
  : option (host_fields * gset nat) :=
  match removeAllNodes_loop fuel 0 h drawn with
  | Some (h, drawn) => Some (set_nodes [] h, drawn)
  | None => None
  end.

End Removal.

(** A host with two nodes: circle 1 with lines 10 and 11, circle 2 with line
    11. *)
Definition two_node_host : host_fields :=
  {| rx := 0; x := 12.5; color := "red";
     nodes := [ {| node_circle := 1; node_lines := [10; 11] |};
                {| node_circle := 2; node_lines := [11] |} ]%nat;
     host_rect := rect 25 25 "red" 0 0;
     host_line := line 12.5 30 12.5 500 |}.

(** The shapes of a list of nodes. *)
Definition shapes_of (ns : list GraphBuilderNode) : gset nat :=
  ⋃ ((fun n => {[node_circle n]} ∪ list_to_set (node_lines n)) <$> ns).

End Builder.

(** ** visualization/global.js *)

Module Visualization.

#[local] Open Scope float_scope.

(** [Global.SIDE_BAR_WIDTH], [Global.HOST_SQUARE_SIZE]. *)
Definition SIDE_BAR_WIDTH : Z := 240.
Definition HOST_SQUARE_SIZE : Z := 25.

(** What [Global] uses of a [View]: [getHosts()], the hosts its transformer
    hides ([getTransformer().getHiddenHosts()]) and the width [setWidth]
    stores. *)
Record View := {
  view_hosts : list string;
  view_hiddenHosts : list string;
  view_width : float
}.

Definition setWidth (w : float) (v : View) : View :=
  {| view_hosts := view_hosts v;
     view_hiddenHosts := view_hiddenHosts v;
     view_width := w |}.

(** What [Global] uses of a [HostPermutation]: [getHosts()] and
    [getHostColor(host)]. *)
Record HostPermutation := {
  perm_hosts : list string;
  perm_color : string -> string
}.

(** A [Global] object; [hostPermutation] is [None] for [null]. *)
Record Global := {
  views : list View;
  hostPermutation : option HostPermutation
}.

(** A square of the hidden-host grid and the [svg] that holds the grid. *)
Record square := {
  sq_host : string;
  sq_width : Z;
  sq_height : Z;
  sq_fill : string;
  sq_y : Z;
  sq_x : Z
}.

Record grid := {
  grid_width : float;
  grid_height : Z;
  grid_class : string;
  grid_squares : list square
}.

(** The part of the document [Global] measures and writes: the widths
    jQuery reports, the width given to [#graph], whether the [.hidden]
    section is shown and the [svg] elements inside it. *)
Record page := {
  window_width : float;
  header_outerWidth : float;
  sidebar_outerWidth : float;
  sidebar_width : float;
  graph_width : option float;
  hidden_shown : bool;
  hidden_svg : list grid
}.

(** *** getHiddenHosts *)

(** [hiddenHosts[host] = true] for each hidden host of each view, starting
    from [{}]. *)
Definition getHiddenHosts (g : Global) : JSObject.object :=
  foldl (fun acc view =>
           foldl (fun acc host => JSObject.set host true acc) acc
                 (view_hiddenHosts view))
        JSObject.empty (views g).

(** [Object.keys(o)]. *)
Definition Object_keys (o : JSObject.object) : list string := JSObject.keys o.

(** [!o[h]]. *)
Definition not_in (o : JSObject.object) (h : string) : bool :=
  negb (JSObject.truthy o h).

(** The hosts of a view that the filter of lines 203-205 keeps. *)
Definition kept_hosts (hiddenHosts : JSObject.object) (view : View) : list string :=
  filter (fun h => not_in hiddenHosts h = true) (view_hosts view).

(** The hidden hosts as the specification words them: the union, over the
    views, of each view's own hidden hosts, as a set. *)
Definition hidden_union (g : Global) : gset string :=
  ⋃ ((fun view => list_to_set (view_hiddenHosts view)) <$> views g).

(** The number of a view's hosts that are not in the global hidden set. *)
Definition visible_count (g : Global) (view : View) : Z :=
  Z.of_nat (length (filter (fun h => h ∉ hidden_union g) (view_hosts view))).

(** [hosts.length] at line 206 for one view. *)
Definition kept_count (g : Global) (view : View) : Z :=
  Z.of_nat (length (kept_hosts (getHiddenHosts g) view)).

(** The hidden hosts that can become keys of an object: all but a host
    called [__proto__]. *)
Definition hidden_keys (g : Global) : gset string :=
  hidden_union g ∖ {["__proto__"%string]}.

(** *** resize *)

(** The local variables of [resize] after line 200. *)
Record layout := {
  middleWidth : float;
  totalMargin : float;
  hostMargin : float;
  widthPerHost : float
}.

(** Lines 186-200, from the measured [middleWidth] of line 185, the number
    of visible hosts and [this.views.length]. *)
Definition compute_layout (middleWidth0 : float) (visibleHosts viewCount : Z)
  : layout :=
  let middleWidth := middleWidth0 in
  let totalMargin :=
    middleWidth - JS.of_Z visibleHosts * JS.of_Z HOST_SQUARE_SIZE in
  let hostMargin := totalMargin / JS.of_Z (visibleHosts + viewCount - 2) in
  let '(hostMargin, totalMargin, middleWidth) :=
    if hostMargin <? JS.of_Z HOST_SQUARE_SIZE then
      let hostMargin := JS.of_Z HOST_SQUARE_SIZE in
      let totalMargin :=
        hostMargin * JS.of_Z (visibleHosts + viewCount - 2) in
      let middleWidth :=
        totalMargin + JS.of_Z visibleHosts * JS.of_Z HOST_SQUARE_SIZE in
      (hostMargin, totalMargin, middleWidth)
    else (hostMargin, totalMargin, middleWidth) in
  let widthPerHost := JS.of_Z HOST_SQUARE_SIZE + hostMargin in
  let '(widthPerHost, hostMargin) :=
    if (visibleHosts =? 1)%Z then (middleWidth, 0) else (widthPerHost, hostMargin) in
  {| middleWidth := middleWidth; totalMargin := totalMargin;
     hostMargin := hostMargin; widthPerHost := widthPerHost |}.

(** Lines 178-181. *)
Definition visibleHosts (g : Global) (hp : HostPermutation) : Z :=
  let numHidden := Z.of_nat (length (Object_keys (getHiddenHosts g))) in
  let allHosts := Z.of_nat (length (perm_hosts hp)) in
  allHosts - numHidden.

(** Lines 183-185. *)
Definition measured_middleWidth (pg : page) : float :=
  let sidebarLeft := header_outerWidth pg in
  let sidebarRight := sidebar_outerWidth pg in
  window_width pg - sidebarLeft - sidebarRight.

(** The body of the [forEach] of lines 202-207 for one view. *)
Definition resize_view (hiddenHosts : JSObject.object) (l : layout) (view : View)
  : View :=
  let hosts := kept_hosts hiddenHosts view in
  setWidth (JS.of_Z (Z.of_nat (length hosts)) * widthPerHost l - hostMargin l) view.

(** [Global.prototype.resize]: the returned margin, the object with its
    views resized and the document with [#graph] resized.  Reading
    [getHosts] on a [null] permutation throws. *)
Definition resize (g : Global) (pg : page) : result (float * Global * page) :=
  let hiddenHosts := getHiddenHosts g in
  match hostPermutation g with
  | None => Throw TypeError
  | Some hp =>
      let l := compute_layout (measured_middleWidth pg) (visibleHosts g hp)
                              (Z.of_nat (length (views g))) in
      Ok (hostMargin l,
          {| views := map (resize_view hiddenHosts l) (views g);
             hostPermutation := hostPermutation g |},
          {| window_width := window_width pg;
             header_outerWidth := header_outerWidth pg;
             sidebar_outerWidth := sidebar_outerWidth pg;
             sidebar_width := sidebar_width pg;
             graph_width := Some (middleWidth l);
             hidden_shown := hidden_shown pg;
             hidden_svg := hidden_svg pg |})
  end.

(** [addView(view)]: the object and the document after the call, and the
    exception it ends with, if any.  The view is pushed before [resize] runs,
    and [resize] throws before it writes anything, so after a failed call the
    list holds the new view and nothing else has changed. *)
Definition addView (view : View) (g : Global) (pg : page)
  : Global * page * option js_error :=
  let pushed := {| views := views g ++ [view];
                   hostPermutation := hostPermutation g |} in
  match resize pushed pg with
  | Ok (_, g', pg') => (g', pg', None)
  | Throw e => (pushed, pg, Some e)
  end.

(** [setHostPermutation]. *)

Definition setHostPermutation (hp : HostPermutation) (g : Global) : Global :=
  {| views := views g; hostPermutation := Some hp |}.

(** A [Global] object with the property [hiddenHosts], which the
    constructor does not create and which only [revert] assigns; [None] while
    the object has none. *)
Record Global_properties := {
  global : Global;
  hiddenHosts_property : option (list string)
}.

(** The object [new Global()] builds. *)
Definition constructed : Global_properties :=
  {| global := {| views := []; hostPermutation := None |};
     hiddenHosts_property := None |}.

(** [Global.prototype.revert]. *)
Definition revert (o : Global_properties) : Global_properties :=
  {| global := {| views := []; hostPermutation := None |};
     hiddenHosts_property := Some [] |}.

(** *** drawSideBar *)

#[local] Open Scope Z_scope.

(** [Math.floor((Global.SIDE_BAR_WIDTH + 5) / (Global.HOST_SQUARE_SIZE + 5))];
    on positive integers [Z]'s division is the floor of the quotient. *)
Definition hostsPerLine : Z := (SIDE_BAR_WIDTH + 5) / (HOST_SQUARE_SIZE + 5).

(** [Math.ceil(n / d)] for a length [n] and a positive integer [d]. *)
Definition Math_ceil_div (n d : Z) : Z := - ((- n) / d).

(** The callback of [rect.attr("y", ...)] run over the data in order; it
    shares the variables [count] and [y]. *)
Fixpoint assign_y (count y : Z) (hh : list string) : list Z :=
  match hh with
  | [] => []
  | _ :: rest =>
      let count := count + 1 in
      let '(y, count) :=
        if count >? hostsPerLine
        then (y + (HOST_SQUARE_SIZE + 5), 1)
        else (y, count) in
      y :: assign_y count y rest
  end.

(** The callback of [rect.attr("x", ...)] run over the data in order; it
    shares the variable [x]. *)
Fixpoint assign_x (x : Z) (hh : list string) : list Z :=
  match hh with
  | [] => []
  | _ :: rest =>
      let x := x + (HOST_SQUARE_SIZE + 5) in
      let x := if x + HOST_SQUARE_SIZE >? SIDE_BAR_WIDTH then 0 else x in
      x :: assign_x x rest
  end.

(** One square per key, in the order of the keys. *)
Fixpoint make_squares (color : string -> string)
         (hh : list string) (ys xs : list Z) : list square :=
  match hh, ys, xs with
  | host :: hh, y :: ys, x :: xs =>
      {| sq_host := host;
         sq_width := HOST_SQUARE_SIZE;
         sq_height := HOST_SQUARE_SIZE;
         sq_fill := color host;
         sq_y := y;
         sq_x := x |} :: make_squares color hh ys xs
  | _, _, _ => []
  end.

Definition set_hidden (shown : bool) (svgs : list grid) (pg : page) : page :=
  {| window_width := window_width pg;
     header_outerWidth := header_outerWidth pg;
     sidebar_outerWidth := sidebar_outerWidth pg;
     sidebar_width := sidebar_width pg;
     graph_width := graph_width pg;
     hidden_shown := shown;
     hidden_svg := svgs |}.

(** [Global.prototype.drawSideBar].  The old [svg] is removed first; with
    no hidden host the section is hidden and nothing else happens.  The
    [fill] callback reads [getHostColor] on the permutation, which throws
    when it is [null]. *)
Definition drawSideBar (g : Global) (pg : page) : result page :=
  let hh := Object_keys (getHiddenHosts g) in
  if Z.of_nat (length hh) <=? 0 then
    Ok (set_hidden false [] pg)
  else
    match hostPermutation g with
    | None => Throw TypeError
    | Some hp =>
        let count := 0 in
        let x := SIDE_BAR_WIDTH in
        let y := 0 in
        let height :=
          Math_ceil_div (Z.of_nat (length hh)) hostsPerLine
          * (HOST_SQUARE_SIZE + 5) - 5 in
        let ys := assign_y count y hh in
        let xs := assign_x x hh in
        Ok (set_hidden true
              [ {| grid_width := sidebar_width pg;
                   grid_height := height;
                   grid_class := "hidden-hosts";
                   grid_squares := make_squares (perm_color hp) hh ys xs |} ]
              pg)
    end.

(** The shared variables [count] and [y] after [done] squares. *)
Definition y_state (done count y : Z) : Prop :=
  (done = 0 /\ count = 0 /\ y = 0)
  \/ (1 <= done /\ count = (done - 1) mod 8 + 1 /\ y = 30 * ((done - 1) / 8)).

(** The shared variable [x] after [done] squares. *)
Definition x_state (done x : Z) : Prop :=
  (done = 0 /\ x = 240) \/ (1 <= done /\ x = 30 * ((done - 1) mod 8)).

(** The square of the [k]-th key when the keys are laid out row by row,
    [hostsPerLine] to a row, each cell [HOST_SQUARE_SIZE + 5] wide and high. *)
Definition square_at (color : string -> string) (k : nat) (host : string) : square :=
  {| sq_host := host;
     sq_width := HOST_SQUARE_SIZE;
     sq_height := HOST_SQUARE_SIZE;
     sq_fill := color host;
     sq_y := (HOST_SQUARE_SIZE + 5) * (Z.of_nat k / hostsPerLine);
     sq_x := (HOST_SQUARE_SIZE + 5) * (Z.of_nat k mod hostsPerLine) |}.

(** The rows of a grid: the distinct vertical offsets of its squares. *)
Definition rows (gr : grid) : gset Z := list_to_set (sq_y <$> grid_squares gr).

(** *** The singleton *)

(** [Global] objects are told apart by reference: the objects constructed
    so far are numbered in order of construction.  [Global.instance] is the
    page's one mutable static; [sidebar_css_width] is the width the
    constructor gives [#sidebar]. *)
Record process := {
  instance : option nat;
  objects : list Global;
  sidebar_css_width : option Z
}.

(** The state in which the script leaves the page: [Global.instance = null]. *)
Definition loaded : process :=
  {| instance := None; objects := []; sidebar_css_width := None |}.

(** [new Global()]: throws when [Global.instance] is set; otherwise it
    returns a reference to a new object.  It does not itself assign
    [Global.instance]. *)
Definition new_Global (p : process) : result (nat * process) :=
  match instance p with
  | Some _ =>
      Throw (Exception "Global is a singleton - use getInstance() instead.")
  | None =>
      Ok (length (objects p),
          {| instance := instance p;
             objects := objects p ++ [ {| views := []; hostPermutation := None |} ];
             sidebar_css_width := Some SIDE_BAR_WIDTH |})
  end.

(** [Global.getInstance()]. *)
Definition getInstance (p : process) : result (nat * process) :=
  match instance p with
  | None =>
      match new_Global p with
      | Ok (g, p') =>
          Ok (g, {| instance := Some g;
                    objects := objects p';
                    sidebar_css_width := sidebar_css_width p' |})
      | Throw e => Throw e
      end
  | Some g => Ok (g, p)
  end.

(** [n] calls of [getInstance] in a row: the references returned and the
    final state, or the first exception. *)
Fixpoint getInstance_times (n : nat) (p : process) : result (list nat * process) :=
  match n with
  | O => Ok ([], p)
  | S k =>
      match getInstance p with
      | Throw e => Throw e
      | Ok (g, p1) =>
          match getInstance_times k p1 with
          | Throw e => Throw e
          | Ok (gs, p2) => Ok (g :: gs, p2)
          end
      end
  end.

(** *** getViews *)

(** [this.views.slice()] returns a new array object.  To follow what a
    caller does with it, arrays of views live in a store indexed by
    reference, and a [Global] object holds the reference of its [views]. *)
Record Global_object := {
  views_at : nat;
  object_hostPermutation : option HostPermutation
}.

(** The [Global] value an object denotes in a store. *)
Definition contents (σ : gmap nat (list View)) (o : Global_object) : option Global :=
  match σ !! views_at o with
  | Some vs => Some {| views := vs; hostPermutation := object_hostPermutation o |}
  | None => None
  end.

(** [arr.slice()]: a new reference holding the same elements in the same
    order. *)
Definition Array_slice (σ : gmap nat (list View)) (a : nat)
  : option (nat * gmap nat (list View)) :=
  match σ !! a with
  | Some vs => let a' := fresh (dom σ) in Some (a', <[a' := vs]> σ)
  | None => None
  end.

(** [Global.prototype.getViews]. *)
Definition getViews (o : Global_object) (σ : gmap nat (list View))
  : option (nat * gmap nat (list View)) :=
  Array_slice σ (views_at o).

(** What a caller can do to an array it holds: [push], [unshift], [pop],
    [shift], [splice(start, deleteCount, ...items)], [reverse] and
    [length = n] (truncation). *)
Inductive array_op :=
| push (v : View)
| unshift (v : View)
| pop
| shift
| splice (start deleteCount : nat) (items : list View)
| reverse_op
| truncate (n : nat).

Definition run_op (op : array_op) (vs : list View) : list View :=
  match op with
  | push v => vs ++ [v]
  | unshift v => v :: vs
  | pop => removelast vs
  | shift => tail vs
  | splice start deleteCount items =>
      take start vs ++ items ++ drop (start + deleteCount) vs
  | reverse_op => reverse vs
  | truncate n => take n vs
  end.

(** The operation applied to the array at reference [a]. *)
Definition mutate (a : nat) (σ : gmap nat (list View)) (op : array_op)
  : gmap nat (list View) :=
  alter (run_op op) a σ.

(** *** drawAll *)

(** A cell of [table.log]: a column of the given width in points, or a
    spacer. *)
Inductive log_cell :=
| log_column (width_pt : float)
| log_spacer.

Inductive css_height :=
| px (h : float)
| auto.

(** What [drawAll] writes besides the [page]: the children of [table.log],
    the views whose [draw()] has put its graphics into [#graph] (in the order
    and state in which each was drawn), the height of [#vizContainer] and the
    right margin given to every [svg] of [#vizContainer] and [#hostBar] but
    the last. *)
Record canvas := {
  log_cells : list log_cell;
  drawn_views : list View;
  vizContainer_height : option css_height;
  svg_margin_right : option float
}.

(** [Math.max] of two numbers: NaN if either is; [+0] is larger than [-0]. *)
Definition max2 (a b : float) : float :=
  if PrimFloat.is_nan a || PrimFloat.is_nan b then nan
  else if (a <? b)%float then b
  else if (b <? a)%float then a
  else if PrimFloat.get_sign a then b else a.

(** [Math.max.apply(null, heights)]: minus infinity for no height. *)
Definition Math_max (heights : list float) : float :=
  foldl max2 neg_infinity heights.

(** [$("table.log .spacer:last-child").remove()] on cells that are all
    children of the table: a spacer in last place goes. *)
Definition remove_last_spacer (cells : list log_cell) : list log_cell :=
  match last cells with
  | Some log_spacer => removelast cells
  | _ => cells
  end.

(** [(240 - 12 * (n - 1)) / n], the width of a log column for [n] views. *)
Definition logColWidth_for (n : nat) : float :=
  (JS.of_Z (240 - 12 * (Z.of_nat n - 1)) / JS.of_Z (Z.of_nat n))%float.

(** [n] columns of width [w] with a spacer between neighbours. *)
Definition log_row (w : float) (n : nat) : list log_cell :=
  match n with
  | O => []
  | S k => log_column w :: concat (replicate k [log_spacer; log_column w])
  end.

Section DrawAll.

(** The height a view's visual model reports once updated; the visual model
    is not in these files. *)
Variable visual_height : View -> float.

(** One turn of the loop of lines 121-129. *)
Definition draw_view (logColWidth : float) (cv : canvas) (view : View) : canvas :=
  {| log_cells := log_cells cv ++ [log_column logColWidth; log_spacer];
     drawn_views := drawn_views cv ++ [view];
     vizContainer_height := vizContainer_height cv;
     svg_margin_right := svg_margin_right cv |}.

(** [Global.prototype.drawAll]. *)
Definition drawAll (g : Global) (pg : page) (cv : canvas)
  : result (Global * page * canvas) :=
  let maxHeight := Math_max (visual_height <$> views g) in
  let cv := {| log_cells := []; drawn_views := [];
               vizContainer_height := Some (px maxHeight);
               svg_margin_right := svg_margin_right cv |} in
  let viewCount := Z.of_nat (length (views g)) in
  let logColWidth :=
    (JS.of_Z (240 - 12 * (viewCount - 1)) / JS.of_Z viewCount)%float in
  match resize g pg with
  | Throw e => Throw e
  | Ok (hostMargin, g, pg) =>
      let cv := foldl (draw_view logColWidth) cv (views g) in
      let cv := {| log_cells := remove_last_spacer (log_cells cv);
                   drawn_views := drawn_views cv;
                   vizContainer_height := Some auto;
                   svg_margin_right := Some (hostMargin * 2)%float |} in
      match drawSideBar g pg with
      | Throw e => Throw e
      | Ok pg => Ok (g, pg, cv)
      end
  end.

End DrawAll.

(** *** Sample states *)

#[local] Open Scope string_scope.

(** Two views over hosts [a], [b], [c], [d]; both hide [b], the second also
    [c]. *)
Definition left_view : View :=
  {| view_hosts := ["a"; "b"; "c"; "d"]; view_hiddenHosts := ["b"];
     view_width := 0 |}.

Definition right_view : View :=
  {| view_hosts := ["a"; "b"; "c"; "d"]; view_hiddenHosts := ["b"; "c"];
     view_width := 0 |}.

Definition plain_colors : HostPermutation :=
  {| perm_hosts := ["a"; "b"; "c"; "d"]; perm_color := fun _ => "red" |}.

Definition two_views : Global :=
  {| views := [left_view; right_view]; hostPermutation := Some plain_colors |}.

(** One view whose hosts are [a], [toString] and [b], none hidden. *)
Definition toString_view : View :=
  {| view_hosts := ["a"; "toString"; "b"]; view_hiddenHosts := [];
     view_width := 0 |}.

Definition host_called_toString : Global :=
  {| views := [toString_view];
     hostPermutation := Some {| perm_hosts := ["a"; "toString"; "b"];
                                perm_color := fun _ => "red" |} |}.

(** One view of the hosts [a] and [__proto__] that hides both. *)
Definition proto_view : View :=
  {| view_hosts := ["a"; "__proto__"]; view_hiddenHosts := ["__proto__"; "a"];
     view_width := 0 |}.

Definition host_called_proto : Global :=
  {| views := [proto_view];
     hostPermutation := Some {| perm_hosts := ["a"; "__proto__"];
                                perm_color := fun _ => "red" |} |}.

(** One view that hides its only host, [__proto__]. *)
Definition only_proto_view : View :=
  {| view_hosts := ["__proto__"]; view_hiddenHosts := ["__proto__"];
     view_width := 0 |}.

Definition only_proto_hidden : Global :=
  {| views := [only_proto_view];
     hostPermutation := Some {| perm_hosts := ["__proto__"];
                                perm_color := fun _ => "red" |} |}.

(** One view showing its only host. *)
Definition lone_view : View :=
  {| view_hosts := ["a"]; view_hiddenHosts := []; view_width := 0 |}.

Definition one_host : Global :=
  {| views := [lone_view];
     hostPermutation := Some {| perm_hosts := ["a"]; perm_color := fun _ => "red" |} |}.

(** One view of thirty hosts [h0] .. [h29], the given ones hidden. *)
Definition numbered_hosts (n : nat) : list string :=
  (fun i => "h" ++ NilZero.string_of_uint (Nat.to_uint i)) <$> seq 0 n.

Definition thirty_hosts (hidden : list string) : Global :=
  {| views := [ {| view_hosts := numbered_hosts 30; view_hiddenHosts := hidden;
                   view_width := 0 |} ];
     hostPermutation := Some {| perm_hosts := numbered_hosts 30;
                                perm_color := fun _ => "red" |} |}.

(** A [Global] object whose views array sits at reference 7. *)
Definition stored_views : gmap nat (list View) := {[ 7%nat := [left_view; right_view] ]}.

Definition stored_global : Global_object :=
  {| views_at := 7; object_hostPermutation := Some plain_colors |}.

(** A canvas left by an earlier drawing. *)
Definition stale_canvas : canvas :=
  {| log_cells := [log_spacer; log_column 7];
     drawn_views := [lone_view];
     vizContainer_height := Some (px 3);
     svg_margin_right := None |}.

(** A window of the given width with a 100 pixel header and the 240 pixel
    sidebar. *)
Definition window (width : float) : page :=
  {| window_width := width; header_outerWidth := 100; sidebar_outerWidth := 240;
     sidebar_width := 240; graph_width := None; hidden_shown := false;
     hidden_svg := [] |}.

End Visualization.

(** * Properties *)

(** ** The palette *)

(** C4: the palette built when the script is loaded has exactly 9 entries,
    pairwise distinct; the entry for i = 9, 8, ..., 1 (in that order) is
    [HSVtoRGB(i / 9 + .4, .4, .8)]; computed in binary64 it is the same
    sequence of strings as the six-sector formula gives in exact arithmetic
    with each component cut to floor(component * 255), namely the nine
    strings listed.  Being a closed term, it is the same on every run. *)
Theorem palette_nine_distinct_hsv_colours :
  GraphBuilderHost_colors
    = map (fun i => HSVtoRGB (JS.of_Z i / 9 + 0.4) 0.4 0.8)
          [9; 8; 7; 6; 5; 4; 3; 2; 1]%Z
  /\ GraphBuilderHost_colors = PaletteSpec.palette
  /\ GraphBuilderHost_colors
     = [ "rgb(122,204,155)"; "rgb(144,204,122)"; "rgb(198,204,122)";
         "rgb(204,155,122)"; "rgb(204,122,144)"; "rgb(204,122,198)";
         "rgb(155,122,204)"; "rgb(122,144,204)"; "rgb(122,198,204)" ]%string
  /\ length GraphBuilderHost_colors = 9%nat
  /\ NoDup GraphBuilderHost_colors.
Proof.
  assert (E : GraphBuilderHost_colors
     = [ "rgb(122,204,155)"; "rgb(144,204,122)"; "rgb(198,204,122)";
         "rgb(204,155,122)"; "rgb(204,122,144)"; "rgb(204,122,198)";
         "rgb(155,122,204)"; "rgb(122,144,204)"; "rgb(122,198,204)" ]%string)
    by (vm_compute; reflexivity).
  split; [vm_compute; reflexivity|].
  split; [vm_compute; reflexivity|].
  split; [exact E|].
  rewrite E. split; [reflexivity|].
  apply (bool_decide_unpack _). vm_compute. exact I.
Qed.

(** ** Host creation *)

Lemma last_snoc_some {A} (l : list A) (a : A) : last (l ++ [a]) = Some a.
Proof. apply last_snoc. Qed.

Lemma length_snoc_is_one {A} (l : list A) (a : A) :
  (length (l ++ [a]) =? 1)%nat = match l with [] => true | _ => false end.
Proof.
  rewrite length_app, Nat.add_comm. simpl.
  destruct l; reflexivity.
Qed.

(** C5: a host is created by popping the top colour of the shared stack.
    On an empty stack the constructor returns at once: the stack, the button
    and the drawing surface are as before and the object has no colour.  On a
    stack [cs ++ [c]] the host gets [c] and the stack is left as [cs].  Nine
    creations in a row on the freshly loaded palette hand out its nine colours
    from the top, empty the stack and leave the add button disabled; a tenth
    attempt changes nothing, so the button stays disabled. *)
Theorem host_creation_pops_or_stops :
  (forall hostNum disabled background surface,
      let pg := {| Builder.colors := []; Builder.add_disabled := disabled;
                   Builder.add_background := background;
                   Builder.svg := surface |} in
      Builder.new_GraphBuilderHost hostNum pg = ({| Builder.fields := None |}, pg))
  /\ (forall hostNum cs c disabled background surface,
      let pg := {| Builder.colors := cs ++ [c]; Builder.add_disabled := disabled;
                   Builder.add_background := background;
                   Builder.svg := surface |} in
      exists f pg',
        Builder.new_GraphBuilderHost hostNum pg = ({| Builder.fields := Some f |}, pg')
        /\ Builder.color f = c
        /\ Builder.colors pg' = cs
        /\ Builder.add_disabled pg'
           = match cs with [] => true | _ => disabled end)
  /\ (forall first disabled background surface,
      let start := Builder.loaded_page disabled background surface in
      let after9 := snd (Builder.create_hosts 9 first start) in
      omap (fun h => Builder.color <$> Builder.fields h)
           (fst (Builder.create_hosts 9 first start))
        = rev GraphBuilderHost_colors
      /\ Builder.colors after9 = []
      /\ Builder.add_disabled after9 = true
      /\ forall hostNum,
           Builder.new_GraphBuilderHost hostNum after9
             = ({| Builder.fields := None |}, after9)).
Proof.
  split; [|split].
  - intros. reflexivity.
  - intros hostNum cs c disabled background surface pg.
    unfold Builder.new_GraphBuilderHost. subst pg. cbn [Builder.colors].
    rewrite last_snoc_some, removelast_last, length_snoc_is_one.
    eexists _, _. split; [reflexivity|].
    cbn. repeat split. destruct cs; reflexivity.
  - intros first disabled background surface start after9.
    assert (E : Builder.colors after9 = []) by (vm_compute; reflexivity).
    split; [vm_compute; reflexivity|].
    split; [exact E|].
    split; [vm_compute; reflexivity|].
    intros hostNum. unfold Builder.new_GraphBuilderHost. rewrite E. reflexivity.
Qed.

(** ** getHiddenHosts *)

Section HiddenHosts.

Import Visualization.

Lemma put_keys (k : string) (v : bool) (o : JSObject.object) :
  (JSObject.put k v o).*1 = if decide (k ∈ o.*1) then o.*1 else o.*1 ++ [k].
Proof.
  induction o as [|[k' v'] o IH]; cbn [JSObject.put fmap list_fmap fst].
  - rewrite decide_False by apply not_elem_of_nil. reflexivity.
  - destruct (decide (k' = k)) as [->|Hne]; cbn [fmap list_fmap fst].
    + rewrite decide_True by left. reflexivity.
    + fold (fmap (M := list) (@fst string bool)). rewrite IH.
      destruct (decide (k ∈ o.*1)) as [Hin|Hout].
      * rewrite decide_True by (right; exact Hin). reflexivity.
      * rewrite decide_False; [reflexivity|].
        rewrite elem_of_cons. intros [E|E]; [congruence|contradiction].
Qed.

Lemma set_keys (k : string) (v : bool) (o : JSObject.object) :
  (JSObject.set k v o).*1
  = if decide (k = "__proto__"%string \/ k ∈ o.*1) then o.*1 else o.*1 ++ [k].
Proof.
  unfold JSObject.set. destruct (decide (k = "__proto__"%string)) as [E|E].
  - rewrite decide_True by tauto. reflexivity.
  - rewrite put_keys. destruct (decide (k ∈ o.*1)).
    + rewrite decide_True by tauto. reflexivity.
    + rewrite decide_False by tauto. reflexivity.
Qed.

Lemma put_all_true (k : string) (o : JSObject.object) :
  Forall (fun kv => kv.2 = true) o ->
  Forall (fun kv => kv.2 = true) (JSObject.put k true o).
Proof.
  induction 1 as [|[k' v'] o Hv Ho IH]; cbn [JSObject.put].
  - repeat constructor.
  - destruct (decide (k' = k)); constructor; auto.
Qed.

Lemma own_all_true (o : JSObject.object) (k : string) :
  Forall (fun kv => kv.2 = true) o ->
  JSObject.own o k = if decide (k ∈ o.*1) then Some true else None.
Proof.
  induction 1 as [|[k' v'] o Hv Ho IH]; cbn [JSObject.own fmap list_fmap fst].
  - rewrite decide_False by apply not_elem_of_nil. reflexivity.
  - cbn in Hv. subst v'. fold (fmap (M := list) (@fst string bool)).
    destruct (decide (k' = k)) as [->|Hne].
    + rewrite decide_True by left. reflexivity.
    + rewrite IH. destruct (decide (k ∈ o.*1)) as [Hin|Hout].
      * rewrite decide_True by (right; exact Hin). reflexivity.
      * rewrite decide_False; [reflexivity|].
        rewrite elem_of_cons. intros [E|E]; [congruence|contradiction].
Qed.

(** An object all of whose own properties are [true], no key twice. *)
Lemma hide_hosts_invariant (hs : list string) :
  forall acc : JSObject.object,
    let o := foldl (fun acc host => JSObject.set host true acc) acc hs in
    (forall k, k ∈ o.*1 <-> k ∈ acc.*1 \/ (k <> "__proto__"%string /\ k ∈ hs))
    /\ (NoDup acc.*1 -> NoDup o.*1)
    /\ (Forall (fun kv => kv.2 = true) acc -> Forall (fun kv => kv.2 = true) o).
Proof.
  induction hs as [|h hs IH]; intros acc; cbn [foldl].
  - split; [|auto]. intros k. rewrite elem_of_nil. tauto.
  - specialize (IH (JSObject.set h true acc)). cbv zeta in IH.
    destruct IH as (Hk & Hn & Hv). split; [|split].
    + intros k. rewrite Hk, set_keys, elem_of_cons.
      destruct (decide (h = "__proto__"%string \/ h ∈ acc.*1)) as [Hh|Hh].
      * split; [tauto|]. intros [Ha|[Hp [E|Hs]]]; [tauto|subst k; tauto|tauto].
      * rewrite elem_of_app, list_elem_of_singleton.
        split; [|tauto]. intros [[Ha|E]|Hs]; [tauto|subst k; tauto|tauto].
    + intros Hnd. apply Hn. rewrite set_keys.
      destruct (decide (h = "__proto__"%string \/ h ∈ acc.*1)) as [Hh|Hh];
        [exact Hnd|].
      apply NoDup_app. split; [exact Hnd|].
      split; [|apply NoDup_singleton].
      intros x Hx Hx'. apply list_elem_of_singleton in Hx'. subst x. tauto.
    + intros Hall. apply Hv. unfold JSObject.set.
      destruct (decide (h = "__proto__"%string)); [exact Hall|].
      apply put_all_true. exact Hall.
Qed.

Lemma hide_views_invariant (vs : list View) :
  forall acc : JSObject.object,
    let o := foldl (fun acc view =>
                      foldl (fun acc host => JSObject.set host true acc) acc
                            (view_hiddenHosts view)) acc vs in
    (forall k, k ∈ o.*1
               <-> k ∈ acc.*1
                   \/ (k <> "__proto__"%string
                       /\ exists v, v ∈ vs /\ k ∈ view_hiddenHosts v))
    /\ (NoDup acc.*1 -> NoDup o.*1)
    /\ (Forall (fun kv => kv.2 = true) acc -> Forall (fun kv => kv.2 = true) o).
Proof.
  induction vs as [|v vs IH]; intros acc; cbn [foldl].
  - split; [|auto]. intros k. split; [tauto|].
    intros [?|[_ (v & Hv & _)]]; [assumption|].
    apply elem_of_nil in Hv. contradiction.
  - pose proof (hide_hosts_invariant (view_hiddenHosts v) acc) as Hin.
    cbv zeta in Hin. destruct Hin as (Hk1 & Hn1 & Hv1).
    match goal with
    | |- context [foldl _ ?a vs] => specialize (IH a)
    end.
    cbv zeta in IH. destruct IH as (Hk & Hn & Hv). split; [|split; auto].
    intros k. rewrite Hk, Hk1. split.
    + intros [[Ha|[Hp Hs]]|[Hp (v' & Hv' & Hs)]]; [tauto| |].
      * right. split; [assumption|]. exists v. split; [left|assumption].
      * right. split; [assumption|]. exists v'. split; [right|]; assumption.
    + intros [Ha|[Hp (v' & Hv' & Hs)]]; [tauto|].
      apply elem_of_cons in Hv' as [E|Hv']; [subst v'; tauto|].
      right. split; [assumption|]. exists v'. tauto.
Qed.

Lemma elem_of_hidden_union (g : Global) (h : string) :
  h ∈ hidden_union g <-> exists v, v ∈ views g /\ h ∈ view_hiddenHosts v.
Proof.
  unfold hidden_union. rewrite elem_of_union_list. split.
  - intros (X & HX & Hh). apply list_elem_of_fmap in HX as (v & -> & Hv).
    exists v. split; [exact Hv|]. apply elem_of_list_to_set in Hh. exact Hh.
  - intros (v & Hv & Hh). exists (list_to_set (view_hiddenHosts v)). split.
    + apply list_elem_of_fmap. exists v. auto.
    + apply elem_of_list_to_set. exact Hh.
Qed.

Lemma elem_of_hidden_keys (g : Global) (h : string) :
  h ∈ hidden_keys g <-> h <> "__proto__"%string /\ h ∈ hidden_union g.
Proof. unfold hidden_keys. set_solver. Qed.

(** The own properties of the object [getHiddenHosts] returns. *)
Lemma own_keys_of_getHiddenHosts (g : Global) :
  (forall k, k ∈ (getHiddenHosts g).*1 <-> k ∈ hidden_keys g)
  /\ NoDup (getHiddenHosts g).*1
  /\ Forall (fun kv => kv.2 = true) (getHiddenHosts g).
Proof.
  pose proof (hide_views_invariant (views g) JSObject.empty) as H.
  cbv zeta in H. fold (getHiddenHosts g) in H. destruct H as (Hk & Hn & Hv).
  split; [|split].
  - intros k. rewrite Hk, elem_of_hidden_keys, elem_of_hidden_union.
    cbn. rewrite elem_of_nil. tauto.
  - apply Hn. apply NoDup_nil_2.
  - apply Hv. constructor.
Qed.

Lemma keys_Permutation (o : JSObject.object) : JSObject.keys o ≡ₚ o.*1.
Proof.
  unfold JSObject.keys. rewrite merge_sort_Permutation.
  apply filter_app_complement.
Qed.

Lemma elem_of_Object_keys (g : Global) (h : string) :
  h ∈ Object_keys (getHiddenHosts g) <-> h ∈ hidden_keys g.
Proof.
  unfold Object_keys. rewrite keys_Permutation.
  apply own_keys_of_getHiddenHosts.
Qed.

Lemma NoDup_Object_keys (g : Global) : NoDup (Object_keys (getHiddenHosts g)).
Proof.
  unfold Object_keys. rewrite keys_Permutation.
  apply own_keys_of_getHiddenHosts.
Qed.

Lemma keys_are_hidden_keys (g : Global) :
  list_to_set (Object_keys (getHiddenHosts g)) = hidden_keys g.
Proof.
  apply set_eq. intros h. rewrite elem_of_list_to_set. apply elem_of_Object_keys.
Qed.

Lemma hidden_host_count (g : Global) :
  length (Object_keys (getHiddenHosts g)) = size (hidden_keys g).
Proof.
  rewrite <- keys_are_hidden_keys, size_list_to_set by apply NoDup_Object_keys.
  reflexivity.
Qed.

Lemma truthy_getHiddenHosts (g : Global) (h : string) :
  JSObject.truthy (getHiddenHosts g) h = true
  <-> h ∈ hidden_union g \/ h ∈ JSObject.Object_prototype_properties.
Proof.
  destruct (own_keys_of_getHiddenHosts g) as (Hk & _ & Hv).
  unfold JSObject.truthy. rewrite (own_all_true _ h Hv).
  destruct (decide (h ∈ (getHiddenHosts g).*1)) as [Hin|Hout].
  - apply Hk, elem_of_hidden_keys in Hin. tauto.
  - rewrite bool_decide_eq_true. split; [tauto|].
    intros [Hu|Hp]; [|exact Hp].
    destruct (decide (h = "__proto__"%string)) as [->|Hne].
    + apply (bool_decide_unpack _). vm_compute. exact I.
    + exfalso. apply Hout, Hk, elem_of_hidden_keys. tauto.
Qed.

Lemma filter_absent (l : list string) (h : string) :
  h ∉ l -> filter (fun k => k = h) l = [].
Proof.
  induction l as [|a l IH]; intros Hout; [reflexivity|].
  apply not_elem_of_cons in Hout as [Hne Hout].
  rewrite filter_cons_False by congruence. auto.
Qed.

Lemma NoDup_occurs_once (l : list string) (h : string) :
  NoDup l -> h ∈ l -> length (filter (fun k => k = h) l) = 1%nat.
Proof.
  induction 1 as [|a l Ha Hl IH]; intros Hin.
  - apply elem_of_nil in Hin. contradiction.
  - destruct (decide (a = h)) as [->|Hne].
    + rewrite filter_cons_True by reflexivity.
      rewrite filter_absent by exact Ha. reflexivity.
    + rewrite filter_cons_False by exact Hne.
      apply IH. apply elem_of_cons in Hin as [->|Hin]; [congruence|exact Hin].
Qed.

(** C6: [hiddenHosts["__proto__"] = true] on a plain object reaches the
    setter inherited from [Object.prototype] and adds no key.  For one view
    hiding the hosts [__proto__] and [a], the union of the views' hidden hosts
    holds both, but the object [getHiddenHosts] returns has the single key
    [a]. *)
Theorem getHiddenHosts_leaves_out_a_host_called_proto :
  hidden_union host_called_proto = {["__proto__"%string; "a"%string]}
  /\ getHiddenHosts host_called_proto = [("a"%string, true)]
  /\ Object_keys (getHiddenHosts host_called_proto) = ["a"%string]
  /\ "__proto__"%string ∈ hidden_union host_called_proto
  /\ "__proto__"%string ∉ Object_keys (getHiddenHosts host_called_proto).
Proof.
  split; [vm_compute; reflexivity|].
  split; [vm_compute; reflexivity|].
  split; [vm_compute; reflexivity|].
  split.
  - apply elem_of_hidden_union. exists proto_view.
    split; constructor.
  - apply (bool_decide_unpack _). vm_compute. exact I.
Qed.

(** X19: the keys [Object.keys] lists for the object [getHiddenHosts] returns
    are exactly the hosts that some view hides, except a host called
    [__proto__]; no key is listed twice, so a host hidden by two or more views
    appears once; and every key is an own property holding [true]. *)
Theorem getHiddenHosts_keys_are_the_hidden_hosts_but_proto (g : Global) :
  (forall h, h ∈ Object_keys (getHiddenHosts g)
             <-> h <> "__proto__"%string
                 /\ exists v, v ∈ views g /\ h ∈ view_hiddenHosts v)
  /\ list_to_set (Object_keys (getHiddenHosts g))
     = hidden_union g ∖ {["__proto__"%string]}
  /\ NoDup (Object_keys (getHiddenHosts g))
  /\ (forall h v1 v2,
        h <> "__proto__"%string ->
        v1 ∈ views g -> v2 ∈ views g ->
        h ∈ view_hiddenHosts v1 -> h ∈ view_hiddenHosts v2 ->
        length (filter (fun k => k = h) (Object_keys (getHiddenHosts g))) = 1%nat)
  /\ (forall h, h ∈ Object_keys (getHiddenHosts g) ->
                JSObject.own (getHiddenHosts g) h = Some true).
Proof.
  assert (K : forall h, h ∈ Object_keys (getHiddenHosts g)
                <-> h <> "__proto__"%string
                    /\ exists v, v ∈ views g /\ h ∈ view_hiddenHosts v).
  { intros h.
    rewrite elem_of_Object_keys, elem_of_hidden_keys, elem_of_hidden_union.
    reflexivity. }
  split; [exact K|].
  split; [apply keys_are_hidden_keys|].
  split; [apply NoDup_Object_keys|].
  split.
  - intros h v1 v2 Hne Hv1 _ Hh1 _.
    apply NoDup_occurs_once; [apply NoDup_Object_keys|].
    apply K. eauto.
  - intros h Hh. destruct (own_keys_of_getHiddenHosts g) as (Hk & _ & Hv).
    rewrite (own_all_true _ h Hv). rewrite decide_True; [reflexivity|].
    apply Hk. apply elem_of_Object_keys. exact Hh.
Qed.

End HiddenHosts.

(** ** resize *)

Section Resize.

Import Visualization.
#[local] Open Scope float_scope.

Lemma not_in_getHiddenHosts (g : Global) (h : string) :
  not_in (getHiddenHosts g) h = true
  <-> (h ∉ hidden_union g) /\ (h ∉ JSObject.Object_prototype_properties).
Proof.
  unfold not_in. rewrite negb_true_iff, <- not_true_iff_false, truthy_getHiddenHosts.
  tauto.
Qed.

(** The hosts the filter keeps: those no view hides and whose name is not
    that of a property inherited from [Object.prototype]. *)
Lemma kept_hosts_of_getHiddenHosts (g : Global) (view : View) :
  kept_hosts (getHiddenHosts g) view
  = filter (fun h => (h ∉ hidden_union g)
                     /\ (h ∉ JSObject.Object_prototype_properties))
           (view_hosts view).
Proof.
  unfold kept_hosts. apply list_filter_iff. intros h. apply not_in_getHiddenHosts.
Qed.

(** [visibleHosts] is the number of hosts of the permutation minus the number
    of hidden hosts, unless a host called [__proto__] is hidden, which is not
    counted. *)
Lemma visibleHosts_counts_the_hidden_hosts (g : Global) (hp : HostPermutation) :
  visibleHosts g hp
  = (Z.of_nat (length (perm_hosts hp)) - Z.of_nat (size (hidden_union g))
     + (if decide ("__proto__"%string ∈ hidden_union g) then 1 else 0))%Z.
Proof.
  unfold visibleHosts. cbv zeta. rewrite hidden_host_count. unfold hidden_keys.
  destruct (decide ("__proto__"%string ∈ hidden_union g)) as [Hin|Hout].
  - assert (E : size (hidden_union g)
                = S (size (hidden_union g ∖ {["__proto__"%string]}))).
    { rewrite (union_difference_L {["__proto__"%string]} (hidden_union g))
        at 1 by set_solver.
      rewrite size_union by set_solver. rewrite size_singleton. reflexivity. }
    lia.
  - replace (hidden_union g ∖ {["__proto__"%string]}) with (hidden_union g)
      by set_solver.
    lia.
Qed.

Lemma resize_with_permutation (vs : list View) (hp : HostPermutation) (pg : page) :
  let g := {| views := vs; hostPermutation := Some hp |} in
  let l := compute_layout (measured_middleWidth pg) (visibleHosts g hp)
                          (Z.of_nat (length vs)) in
  resize g pg
  = Ok (hostMargin l,
        {| views :=
             map (fun view =>
                    setWidth (JS.of_Z (kept_count g view) * widthPerHost l
                              - hostMargin l) view) vs;
           hostPermutation := Some hp |},
        {| window_width := window_width pg;
           header_outerWidth := header_outerWidth pg;
           sidebar_outerWidth := sidebar_outerWidth pg;
           sidebar_width := sidebar_width pg;
           graph_width := Some (middleWidth l);
           hidden_shown := hidden_shown pg;
           hidden_svg := hidden_svg pg |}).
Proof. reflexivity. Qed.

Lemma HOST_SQUARE_SIZE_as_number : JS.of_Z HOST_SQUARE_SIZE = 25.
Proof. reflexivity. Qed.

Lemma compute_layout_cases (mw : float) (vh vc : Z) :
  let tm := mw - JS.of_Z vh * 25 in
  let q := tm / JS.of_Z (vh + vc - 2) in
  compute_layout mw vh vc
  = if q <? 25 then
      let tm' := 25 * JS.of_Z (vh + vc - 2) in
      let mw' := tm' + JS.of_Z vh * 25 in
      {| middleWidth := mw'; totalMargin := tm';
         hostMargin := if (vh =? 1)%Z then 0 else 25;
         widthPerHost := if (vh =? 1)%Z then mw' else 25 + 25 |}
    else
      {| middleWidth := mw; totalMargin := tm;
         hostMargin := if (vh =? 1)%Z then 0 else q;
         widthPerHost := if (vh =? 1)%Z then mw else 25 + q |}.
Proof.
  intros tm q. unfold compute_layout. rewrite HOST_SQUARE_SIZE_as_number.
  fold tm. fold q.
  destruct (q <? 25); destruct (vh =? 1)%Z; reflexivity.
Qed.

(** C1: whenever [resize] runs (a host permutation is set; any number of
    views), with [visibleHosts] as lines 178-181 compute it, let
    [totalMargin = middleWidth - visibleHosts * 25] for the measured
    [middleWidth] and [q = totalMargin / (visibleHosts + viewCount - 2)].
    If [q < 25] (as binary64 values, so also when [q] is minus infinity) the
    margin is 25, [totalMargin] becomes [25 * (visibleHosts + viewCount - 2)]
    and [middleWidth] becomes [totalMargin + visibleHosts * 25]; otherwise the
    margin is [q] and both keep their values.  The width given to [#graph] is
    this [middleWidth], and unless [visibleHosts] is 1 the returned margin is
    this margin and every view is sized with it: its width is
    [hosts.length * (25 + margin) - margin] for the [hosts] of line 203. *)
Theorem resize_margin_is_quotient_clamped_at_25
        (vs : list View) (hp : HostPermutation) (pg : page) :
  let g := {| views := vs; hostPermutation := Some hp |} in
  let visible := visibleHosts g hp in
  let viewCount := Z.of_nat (length vs) in
  let measured := measured_middleWidth pg in
  let total := measured - JS.of_Z visible * 25 in
  let q := total / JS.of_Z (visible + viewCount - 2) in
  let margin := if q <? 25 then 25 else q in
  let total' := if q <? 25 then 25 * JS.of_Z (visible + viewCount - 2) else total in
  let middle' := if q <? 25 then total' + JS.of_Z visible * 25 else measured in
  let l := compute_layout measured visible viewCount in
  totalMargin l = total'
  /\ middleWidth l = middle'
  /\ exists returned g' pg',
       resize g pg = Ok (returned, g', pg')
       /\ graph_width pg' = Some middle'
       /\ (visible <> 1%Z ->
           returned = margin
           /\ views g'
              = map (fun view =>
                       setWidth (JS.of_Z (kept_count g view) * (25 + margin)
                                 - margin) view) vs).
Proof.
  intros g visible viewCount measured total q margin total' middle' l.
  pose proof (compute_layout_cases measured visible viewCount) as E.
  cbv zeta in E. fold total q l in E.
  pose proof (resize_with_permutation vs hp pg) as R.
  cbv zeta in R. fold g visible viewCount measured l in R.
  subst margin total' middle'.
  destruct (q <? 25); rewrite E in *; cbn [totalMargin middleWidth] in *.
  - repeat split. eexists _, _, _. split; [exact R|]. split; [reflexivity|].
    intros Hne. apply Z.eqb_neq in Hne.
    cbn [hostMargin widthPerHost views]. rewrite Hne. split; reflexivity.
  - repeat split. eexists _, _, _. split; [exact R|]. split; [reflexivity|].
    intros Hne. apply Z.eqb_neq in Hne.
    cbn [hostMargin widthPerHost views]. rewrite Hne. split; reflexivity.
Qed.

(** C2: whenever [resize] runs, if [visibleHosts] (as lines 178-181 compute
    it) is 1 the width per host is [middleWidth] (the value also given to
    [#graph]) and the returned margin is 0, so every view gets
    [hosts.length * middleWidth - 0] for the [hosts] of line 203; this covers
    the case of one view showing one host.  Otherwise the width per host is
    [25 + hostMargin] for the returned [hostMargin]. *)
Theorem resize_single_visible_host
        (vs : list View) (hp : HostPermutation) (pg : page) :
  let g := {| views := vs; hostPermutation := Some hp |} in
  let visible := visibleHosts g hp in
  let l := compute_layout (measured_middleWidth pg) visible
                          (Z.of_nat (length vs)) in
  exists returned g' pg' middle,
    resize g pg = Ok (returned, g', pg')
    /\ graph_width pg' = Some middle
    /\ middleWidth l = middle
    /\ hostMargin l = returned
    /\ (visible = 1%Z ->
        widthPerHost l = middle
        /\ returned = 0
        /\ views g'
           = map (fun view =>
                    setWidth (JS.of_Z (kept_count g view) * middle - 0) view) vs)
    /\ (visible <> 1%Z ->
        widthPerHost l = 25 + returned
        /\ views g'
           = map (fun view =>
                    setWidth (JS.of_Z (kept_count g view) * (25 + returned)
                              - returned) view) vs).
Proof.
  intros g visible l.
  pose proof (resize_with_permutation vs hp pg) as R.
  cbv zeta in R. fold g visible l in R.
  eexists _, _, _, _. split; [exact R|].
  split; [reflexivity|]. split; [reflexivity|]. split; [reflexivity|].
  pose proof (compute_layout_cases (measured_middleWidth pg) visible
                                   (Z.of_nat (length vs))) as E.
  cbv zeta in E. fold l in E.
  cbn [views]. split.
  - intros H1. apply Z.eqb_eq in H1. rewrite E, H1.
    destruct (_ <? 25); cbn [widthPerHost hostMargin middleWidth];
      repeat split; reflexivity.
  - intros Hne. apply Z.eqb_neq in Hne. rewrite E, Hne.
    destruct (_ <? 25); cbn [widthPerHost hostMargin middleWidth];
      repeat split; reflexivity.
Qed.

(** C3: the filter of line 204 reads [hiddenHosts[h]] on a plain object, so
    a host whose name is that of a property every object inherits is taken
    for hidden.  One view with the hosts [a], [toString] and [b], none of
    them hidden, in a window leaving 660 pixels: all three hosts are outside
    the hidden set and the width per host is 317.5 with margin 292.5, so the
    view should get 3 * 317.5 - 292.5 = 660; [resize] gives it
    2 * 317.5 - 292.5 = 342.5. *)
Theorem resize_takes_a_host_called_toString_for_hidden :
  hidden_union host_called_toString = ∅
  /\ visible_count host_called_toString toString_view = 3%Z
  /\ kept_hosts (getHiddenHosts host_called_toString) toString_view
     = ["a"; "b"]%string
  /\ exists g' pg',
       resize host_called_toString (window 1000) = Ok (292.5, g', pg')
       /\ view_width <$> views g' = [342.5]
       /\ JS.of_Z (visible_count host_called_toString toString_view)
          * (25 + 292.5) - 292.5 = 660.
Proof.
  split; [vm_compute; reflexivity|].
  split; [vm_compute; reflexivity|].
  split; [vm_compute; reflexivity|].
  eexists _, _. split; [vm_compute; reflexivity|].
  split; vm_compute; reflexivity.
Qed.

Lemma filter_agree (P Q : string -> Prop)
      `{forall h, Decision (P h)} `{forall h, Decision (Q h)} (l : list string) :
  (forall h, h ∈ l -> (P h <-> Q h)) -> filter P l = filter Q l.
Proof.
  induction l as [|a l IH]; intros Hagree; [reflexivity|].
  assert (IH' : filter P l = filter Q l).
  { apply IH. intros h Hh. apply Hagree. right. exact Hh. }
  specialize (Hagree a (list_elem_of_here a l)).
  destruct (decide (P a)) as [Hp|Hp].
  - rewrite !filter_cons_True by tauto. f_equal. exact IH'.
  - rewrite !filter_cons_False by tauto. exact IH'.
Qed.

(** X18: whenever [resize] runs, one width per host and one margin (the
    returned one) serve all views: each view keeps its place, its hosts and
    its hidden hosts, and its width becomes [count * widthPerHost -
    hostMargin], where [count] is the number of its hosts that no view hides
    and whose name is not that of a property inherited from
    [Object.prototype].  For a view none of whose hosts has such a name,
    [count] is the number of its hosts outside the global hidden set. *)
Theorem resize_sizes_each_view_by_the_hosts_it_keeps
        (vs : list View) (hp : HostPermutation) (pg : page) :
  let g := {| views := vs; hostPermutation := Some hp |} in
  exists perHost margin g' pg',
    resize g pg = Ok (margin, g', pg')
    /\ perHost = widthPerHost (compute_layout (measured_middleWidth pg)
                                 (visibleHosts g hp) (Z.of_nat (length vs)))
    /\ length (views g') = length vs
    /\ forall (i : nat) (view : View),
         vs !! i = Some view ->
         exists view',
           views g' !! i = Some view'
           /\ view_hosts view' = view_hosts view
           /\ view_hiddenHosts view' = view_hiddenHosts view
           /\ view_width view'
              = JS.of_Z
                  (Z.of_nat
                     (length
                        (filter
                           (fun h =>
                              (h ∉ hidden_union g)
                              /\ (h ∉ JSObject.Object_prototype_properties))
                           (view_hosts view))))
                * perHost - margin
           /\ ((forall h, h ∈ view_hosts view ->
                          h ∉ JSObject.Object_prototype_properties) ->
               view_width view'
               = JS.of_Z (visible_count g view) * perHost - margin).
Proof.
  intros g.
  pose proof (resize_with_permutation vs hp pg) as R.
  cbv zeta in R. fold g in R.
  eexists _, _, _, _. split; [exact R|].
  split; [reflexivity|]. cbn [views].
  split; [apply length_map|].
  intros i view Hi.
  eexists. split.
  { change (map ?f vs) with (f <$> vs). rewrite list_lookup_fmap, Hi. reflexivity. }
  cbn [setWidth view_hosts view_hiddenHosts view_width].
  split; [reflexivity|]. split; [reflexivity|].
  unfold kept_count. rewrite kept_hosts_of_getHiddenHosts.
  split; [reflexivity|].
  intros Hnames. unfold visible_count.
  rewrite (filter_agree _ (fun h => h ∉ hidden_union g) (view_hosts view));
    [reflexivity|].
  intros h Hh. specialize (Hnames h Hh). tauto.
Qed.

End Resize.

(** ** drawSideBar *)

Section SideBar.

Import Visualization.
#[local] Open Scope Z_scope.

Lemma hostsPerLine_is_8 : hostsPerLine = 8.
Proof. reflexivity. Qed.

(** [Math_ceil_div n 8] is the least [c] with [n <= 8 * c]. *)
Lemma Math_ceil_div_8 (n : Z) :
  8 * (Math_ceil_div n 8 - 1) < n <= 8 * Math_ceil_div n 8.
Proof. unfold Math_ceil_div. Z.div_mod_to_equations. lia. Qed.

Lemma assign_y_lookup (hh : list string) :
  forall (done count y : Z) (k : nat) (host : string),
    y_state done count y ->
    hh !! k = Some host ->
    assign_y count y hh !! k = Some (30 * ((done + Z.of_nat k) / 8)).
Proof.
  induction hh as [|a hh IH]; intros done count y k host St Hk; [discriminate|].
  cbn [assign_y]. change hostsPerLine with 8.
  change (HOST_SQUARE_SIZE + 5) with 30.
  assert (Step : y_state (done + 1)
                   (if count + 1 >? 8 then 1 else count + 1)
                   (if count + 1 >? 8 then y + 30 else y)
                 /\ (if count + 1 >? 8 then y + 30 else y) = 30 * (done / 8)).
  { unfold y_state in *.
    destruct (Z.gtb_spec (count + 1) 8) as [Hgt|Hle];
      destruct St as [(-> & -> & ->)|(Hd & -> & ->)];
      try (split; [right|]); Z.div_mod_to_equations; lia. }
  destruct Step as [St' Hy].
  destruct k as [|k].
  - destruct (count + 1 >? 8); cbn; rewrite Hy, Z.add_0_r; reflexivity.
  - replace (done + Z.of_nat (S k)) with (done + 1 + Z.of_nat k) by lia.
    destruct (count + 1 >? 8); exact (IH (done + 1) _ _ k host St' Hk).
Qed.

Lemma assign_x_lookup (hh : list string) :
  forall (done x : Z) (k : nat) (host : string),
    x_state done x ->
    hh !! k = Some host ->
    assign_x x hh !! k = Some (30 * ((done + Z.of_nat k) mod 8)).
Proof.
  induction hh as [|a hh IH]; intros done x k host St Hk; [discriminate|].
  cbn [assign_x]. change (HOST_SQUARE_SIZE + 5) with 30.
  change HOST_SQUARE_SIZE with 25. change SIDE_BAR_WIDTH with 240.
  assert (Step : x_state (done + 1) (if x + 30 + 25 >? 240 then 0 else x + 30)
                 /\ (if x + 30 + 25 >? 240 then 0 else x + 30) = 30 * (done mod 8)).
  { unfold x_state in *.
    destruct (Z.gtb_spec (x + 30 + 25) 240) as [Hgt|Hle];
      destruct St as [(-> & ->)|(Hd & ->)];
      try (split; [right|]); Z.div_mod_to_equations; lia. }
  destruct Step as [St' Hx].
  destruct k as [|k].
  - cbn. rewrite Hx, Z.add_0_r. reflexivity.
  - replace (done + Z.of_nat (S k)) with (done + 1 + Z.of_nat k) by lia.
    exact (IH (done + 1) _ k host St' Hk).
Qed.

Lemma make_squares_lookup (color : string -> string) (hh : list string) :
  forall (ys xs : list Z) (k : nat),
    make_squares color hh ys xs !! k
    = match hh !! k, ys !! k, xs !! k with
      | Some host, Some y, Some x =>
          Some {| sq_host := host; sq_width := HOST_SQUARE_SIZE;
                  sq_height := HOST_SQUARE_SIZE; sq_fill := color host;
                  sq_y := y; sq_x := x |}
      | _, _, _ => None
      end.
Proof.
  induction hh as [|host hh IH]; intros ys xs k; [reflexivity|].
  destruct ys as [|y ys].
  { destruct k as [|k]; cbn; [reflexivity|]. destruct (hh !! k); reflexivity. }
  destruct xs as [|x xs].
  - destruct k as [|k]; cbn; [reflexivity|].
    destruct (hh !! k), (ys !! k); reflexivity.
  - destruct k as [|k]; [reflexivity|]. exact (IH ys xs k).
Qed.

(** The squares [drawSideBar] draws are the cells of the row-by-row layout. *)
Lemma drawn_squares (color : string -> string) (hh : list string) :
  make_squares color hh (assign_y 0 0 hh) (assign_x SIDE_BAR_WIDTH hh)
  = imap (square_at color) hh.
Proof.
  apply list_eq. intros k.
  rewrite make_squares_lookup, list_lookup_imap.
  destruct (hh !! k) as [host|] eqn:Hk; [|reflexivity].
  rewrite (assign_y_lookup hh 0 0 0 k host) by (try left; auto).
  change SIDE_BAR_WIDTH with 240.
  rewrite (assign_x_lookup hh 0 240 k host) by (try left; auto).
  rewrite !Z.add_0_l. reflexivity.
Qed.

Lemma elem_of_rows_imap (color : string -> string) (hh : list string) (y : Z) :
  y ∈ (list_to_set (sq_y <$> imap (square_at color) hh) : gset Z)
  <-> exists r, y = 30 * r
                /\ 0 <= r < Math_ceil_div (Z.of_nat (length hh)) hostsPerLine.
Proof.
  change hostsPerLine with 8.
  pose proof (Math_ceil_div_8 (Z.of_nat (length hh))) as Hc.
  rewrite elem_of_list_to_set, list_elem_of_fmap. split.
  - intros (sq & -> & Hsq).
    apply list_elem_of_lookup in Hsq as [k Hk].
    rewrite list_lookup_imap in Hk.
    destruct (hh !! k) as [host|] eqn:Hh; [|discriminate].
    apply lookup_lt_Some in Hh. injection Hk as <-.
    exists (Z.of_nat k / 8). split; [reflexivity|].
    Z.div_mod_to_equations. lia.
  - intros (r & -> & Hr).
    assert (Hlt : (Z.to_nat (8 * r) < length hh)%nat) by lia.
    apply lookup_lt_is_Some in Hlt as [host Hh].
    exists (square_at color (Z.to_nat (8 * r)) host). split.
    + cbn. change (HOST_SQUARE_SIZE + 5) with 30. change hostsPerLine with 8.
      f_equal. rewrite Z2Nat.id by lia. Z.div_mod_to_equations. lia.
    + apply list_elem_of_lookup. exists (Z.to_nat (8 * r)).
      rewrite list_lookup_imap, Hh. reflexivity.
Qed.

Lemma size_rows_imap (color : string -> string) (hh : list string) :
  size (list_to_set (sq_y <$> imap (square_at color) hh) : gset Z)
  = Z.to_nat (Math_ceil_div (Z.of_nat (length hh)) hostsPerLine).
Proof.
  set (c := Math_ceil_div (Z.of_nat (length hh)) hostsPerLine).
  assert (E : (list_to_set (sq_y <$> imap (square_at color) hh) : gset Z)
              = list_to_set ((fun r => 30 * Z.of_nat r) <$> seq 0 (Z.to_nat c))).
  { apply set_eq. intros y. rewrite elem_of_rows_imap. fold c.
    rewrite elem_of_list_to_set, list_elem_of_fmap. split.
    - intros (r & -> & Hr). exists (Z.to_nat r). split.
      + rewrite Z2Nat.id by lia. reflexivity.
      + apply elem_of_seq. lia.
    - intros (r & -> & Hr). apply elem_of_seq in Hr.
      exists (Z.of_nat r). split; [reflexivity|lia]. }
  rewrite E, size_list_to_set.
  - rewrite length_fmap, length_seq. reflexivity.
  - apply NoDup_fmap_2; [|apply NoDup_seq].
    intros a b Hab. lia.
Qed.

(** C7: [drawSideBar] counts the keys of the object [getHiddenHosts]
    returns, and a host called [__proto__] never becomes a key of it.  With
    one view hiding its only host, [__proto__], one host is hidden, so the
    section should be shown with one square in one row; [drawSideBar] finds
    no key, hides the section and draws no grid. *)
Theorem drawSideBar_hides_the_section_when_only_proto_is_hidden :
  size (hidden_union only_proto_hidden) = 1%nat
  /\ Math_ceil_div 1 hostsPerLine = 1
  /\ Object_keys (getHiddenHosts only_proto_hidden) = []
  /\ exists pg',
       drawSideBar only_proto_hidden (window 1000) = Ok pg'
       /\ hidden_shown pg' = false
       /\ hidden_svg pg' = [].
Proof.
  split; [vm_compute; reflexivity|].
  split; [reflexivity|].
  split; [vm_compute; reflexivity|].
  eexists. split; [vm_compute; reflexivity|]. split; reflexivity.
Qed.

(** X20: [hostsPerLine] is floor((240 + 5) / (25 + 5)) = 8.  Let [hh] be the
    keys [Object.keys] lists for the object [getHiddenHosts] returns and [n]
    their number (the hidden hosts other than one called [__proto__]).  With
    [n = 0], [drawSideBar] hides the section and leaves no grid in it.  With
    [n > 0] (and a host permutation to colour the squares) it shows the
    section with one grid holding one 25 x 25 square per key; the [k]-th
    key's square sits at column [k mod hostsPerLine] and row
    [k / hostsPerLine], cells being 30 pixels apart in both directions, so a
    new row starts after every [hostsPerLine] squares; the rows used are
    exactly rows 0 .. c - 1, where [c = ceil(n / hostsPerLine)] is the number
    computed for the grid's height [c * 30 - 5]. *)
Theorem drawSideBar_lays_out_the_keys_in_rows (g : Global) (pg : page) :
  let hh := Object_keys (getHiddenHosts g) in
  let n := Z.of_nat (size (hidden_keys g)) in
  let c := Math_ceil_div n hostsPerLine in
  Z.of_nat (length hh) = n
  /\ hostsPerLine = 8
  /\ hostsPerLine * (c - 1) < n <= hostsPerLine * c
  /\ (n = 0 ->
      exists pg',
        drawSideBar g pg = Ok pg'
        /\ hidden_shown pg' = false
        /\ hidden_svg pg' = [])
  /\ (0 < n ->
      forall hp, hostPermutation g = Some hp ->
      exists pg' gr,
        drawSideBar g pg = Ok pg'
        /\ hidden_shown pg' = true
        /\ hidden_svg pg' = [gr]
        /\ grid_height gr = c * (HOST_SQUARE_SIZE + 5) - 5
        /\ Z.of_nat (length (grid_squares gr)) = n
        /\ (forall (k : nat) (host : string),
              hh !! k = Some host ->
              grid_squares gr !! k
              = Some {| sq_host := host; sq_width := 25; sq_height := 25;
                        sq_fill := perm_color hp host;
                        sq_y := (HOST_SQUARE_SIZE + 5) * (Z.of_nat k / hostsPerLine);
                        sq_x := (HOST_SQUARE_SIZE + 5) * (Z.of_nat k mod hostsPerLine) |})
        /\ (forall y, y ∈ rows gr
                      <-> exists r, y = (HOST_SQUARE_SIZE + 5) * r /\ 0 <= r < c)
        /\ size (rows gr) = Z.to_nat c).
Proof.
  intros hh n c.
  assert (Hn : Z.of_nat (length hh) = n).
  { subst hh n. rewrite hidden_host_count. reflexivity. }
  split; [exact Hn|].
  split; [reflexivity|].
  split; [change hostsPerLine with 8; apply Math_ceil_div_8|].
  split.
  - intros H0. unfold drawSideBar. fold hh. rewrite Hn, H0.
    eexists. split; [reflexivity|]. split; reflexivity.
  - intros Hpos hp Hhp. unfold drawSideBar. fold hh. rewrite Hhp, Hn.
    destruct (Z.leb_spec n 0) as [Hle|_]; [lia|].
    eexists _, _. split; [reflexivity|].
    cbn [set_hidden hidden_shown hidden_svg].
    split; [reflexivity|]. split; [reflexivity|].
    cbn [grid_height grid_squares].
    unfold rows. cbn [grid_squares]. rewrite drawn_squares.
    split; [reflexivity|].
    split; [rewrite length_imap; exact Hn|].
    split; [|split].
    + intros k host Hk. rewrite list_lookup_imap, Hk. reflexivity.
    + intros y. rewrite elem_of_rows_imap, Hn. reflexivity.
    + rewrite size_rows_imap, Hn. reflexivity.
Qed.

End SideBar.

(** ** The singleton *)

Section Singleton.

Import Visualization.

Lemma new_Global_throws (p : process) (ref : nat) :
  instance p = Some ref ->
  new_Global p
  = Throw (Exception "Global is a singleton - use getInstance() instead.").
Proof. intros H. unfold new_Global. rewrite H. reflexivity. Qed.

Lemma getInstance_existing (p : process) (ref : nat) :
  instance p = Some ref -> getInstance p = Ok (ref, p).
Proof. intros H. unfold getInstance. rewrite H. reflexivity. Qed.

Lemma getInstance_times_existing (p : process) (ref : nat) (n : nat) :
  instance p = Some ref -> getInstance_times n p = Ok (repeat ref n, p).
Proof.
  intros H. induction n as [|n IH]; [reflexivity|].
  cbn [getInstance_times repeat].
  rewrite (getInstance_existing p ref H), IH. reflexivity.
Qed.

(** C8, as claimed, fails: the constructor does not register the object it
    builds.  Called directly on the loaded page it succeeds and leaves
    [Global.instance] unset; in the state it leaves, an instance exists, yet a
    second construction succeeds as well, and [getInstance] then builds
    another object instead of returning the existing one. *)
Lemma a_second_direct_construction_is_not_refused :
  exists p1 p2 p3,
    new_Global loaded = Ok (0%nat, p1)
    /\ length (objects p1) = 1%nat
    /\ instance p1 = None
    /\ new_Global p1 = Ok (1%nat, p2)
    /\ length (objects p2) = 2%nat
    /\ getInstance p1 = Ok (1%nat, p3)
    /\ length (objects p3) = 2%nat.
Proof. eexists _, _, _. repeat split. Qed.

(** C8, amended: in every process state in which [Global.instance] holds an
    instance (the state every call of [getInstance] leaves), the constructor
    throws at once (nothing is constructed) and [getInstance] returns that
    instance and changes nothing.  From any state, [getInstance] returns an
    instance and leaves it in [Global.instance]; from then on the constructor
    throws and any number of further [getInstance] calls return that same
    instance.  When [Global.instance] was unset, exactly one object is
    constructed. *)
Theorem second_Global_throws_and_getInstance_is_stable (p0 : process) :
  (forall ref,
      instance p0 = Some ref ->
      new_Global p0
      = Throw (Exception "Global is a singleton - use getInstance() instead.")
      /\ getInstance p0 = Ok (ref, p0))
  /\ exists ref p,
       getInstance p0 = Ok (ref, p)
       /\ instance p = Some ref
       /\ new_Global p
          = Throw (Exception "Global is a singleton - use getInstance() instead.")
       /\ (forall n, getInstance_times n p = Ok (repeat ref n, p))
       /\ (instance p0 = None ->
           ref = length (objects p0)
           /\ objects p
              = objects p0 ++ [ {| views := []; hostPermutation := None |} ]).
Proof.
  split.
  - intros ref H. split; [exact (new_Global_throws p0 ref H)|].
    exact (getInstance_existing p0 ref H).
  - destruct (instance p0) as [ref|] eqn:H.
    + exists ref, p0. split; [exact (getInstance_existing p0 ref H)|].
      split; [exact H|]. split; [exact (new_Global_throws p0 ref H)|].
      split; [intros n; exact (getInstance_times_existing p0 ref n H)|].
      discriminate.
    + eexists _, _. split.
      { unfold getInstance, new_Global. rewrite H. reflexivity. }
      cbn [instance objects].
      split; [reflexivity|]. split; [reflexivity|].
      split; [intros n; apply getInstance_times_existing; reflexivity|].
      intros _. split; reflexivity.
Qed.

End Singleton.

(** ** getViews *)

Section GetViews.

Import Visualization.

Lemma mutate_other (a b : nat) (σ : gmap nat (list View)) (op : array_op) :
  a <> b -> mutate a σ op !! b = σ !! b.
Proof. intros Hne. unfold mutate. apply lookup_alter_ne. exact Hne. Qed.

Lemma mutations_other (a b : nat) (ops : list array_op) :
  a <> b ->
  forall σ : gmap nat (list View), foldl (mutate a) σ ops !! b = σ !! b.
Proof.
  intros Hne. induction ops as [|op ops IH]; intros σ; [reflexivity|].
  cbn [foldl]. rewrite IH. apply mutate_other. exact Hne.
Qed.

(** C9: when the object's [views] array is in the store, [getViews] returns
    a reference to a new array, different from the internal one, that holds
    the same views in the same order; the internal array is as before; and
    whatever sequence of [push], [unshift], [pop], [shift], [splice],
    [reverse] and truncation the caller applies to the returned array, the
    internal list (and the [Global] value the object denotes) stays what it
    was at the call. *)
Theorem getViews_returns_independent_copy
        (o : Global_object) (σ : gmap nat (list View)) (vs : list View) :
  σ !! views_at o = Some vs ->
  exists copy σ',
    getViews o σ = Some (copy, σ')
    /\ copy <> views_at o
    /\ σ' !! copy = Some vs
    /\ σ' !! views_at o = Some vs
    /\ forall ops : list array_op,
         foldl (mutate copy) σ' ops !! views_at o = Some vs
         /\ contents (foldl (mutate copy) σ' ops) o = contents σ o.
Proof.
  intros Hvs. unfold getViews, Array_slice. rewrite Hvs.
  set (copy := fresh (dom σ)).
  assert (Hfresh : copy ∉ dom σ) by apply is_fresh.
  assert (Hne : copy <> views_at o).
  { intros E. apply Hfresh. rewrite E. apply elem_of_dom. eauto. }
  exists copy, (<[copy := vs]> σ). split; [reflexivity|].
  split; [exact Hne|].
  split; [apply lookup_insert_eq|].
  assert (Hkeep : <[copy := vs]> σ !! views_at o = Some vs).
  { rewrite lookup_insert_ne by exact Hne. exact Hvs. }
  split; [exact Hkeep|].
  intros ops.
  assert (Hops : foldl (mutate copy) (<[copy := vs]> σ) ops !! views_at o = Some vs).
  { rewrite mutations_other by exact Hne. exact Hkeep. }
  split; [exact Hops|].
  unfold contents. rewrite Hops, Hvs. reflexivity.
Qed.

(** The copy taken of a two-view list: the caller may empty it, the internal
    list still holds both views. *)
Lemma getViews_of_two_views :
  stored_views !! views_at stored_global = Some [left_view; right_view]
  /\ exists copy σ',
       getViews stored_global stored_views = Some (copy, σ')
       /\ copy <> views_at stored_global
       /\ σ' !! copy = Some [left_view; right_view]
       /\ σ' !! views_at stored_global = Some [left_view; right_view]
       /\ forall ops : list array_op,
            foldl (mutate copy) σ' ops !! views_at stored_global
            = Some [left_view; right_view]
            /\ contents (foldl (mutate copy) σ' ops) stored_global
               = contents stored_views stored_global.
Proof.
  split; [reflexivity|].
  apply (getViews_returns_independent_copy stored_global stored_views).
  reflexivity.
Defined.

(** Popping both views off the copy and pushing one back leaves the internal
    array alone. *)
Example getViews_copy_mutated :
  exists copy σ',
    getViews stored_global stored_views = Some (copy, σ')
    /\ foldl (mutate copy) σ' [pop; pop; push lone_view; reverse_op] !! copy
       = Some [lone_view]
    /\ foldl (mutate copy) σ' [pop; pop; push lone_view; reverse_op] !! 7%nat
       = Some [left_view; right_view].
Proof. eexists _, _. split; [reflexivity|]. split; vm_compute; reflexivity. Qed.

End GetViews.

(** ** Removing nodes *)

Section NodeRemoval.

Import Builder.

Variable Array_remove :
  list GraphBuilderNode -> GraphBuilderNode + host_fields -> list GraphBuilderNode.

Lemma erase_lines (ls : list nat) (drawn : gset nat) :
  foldl (fun d l => d ∖ {[l]}) drawn ls = drawn ∖ list_to_set ls.
Proof.
  revert drawn. induction ls as [|l ls IH]; intros drawn; cbn [foldl].
  - set_solver.
  - rewrite IH. set_solver.
Qed.

(** Whatever [Array.remove] does, [removeNode] takes the node's circle and
    lines off the surface, and the host's list becomes what
    [Array.remove(this.nodes, this)] makes of it. *)
Lemma removeNode_effect (h : host_fields) (node : GraphBuilderNode) (drawn : gset nat) :
  removeNode Array_remove h node drawn
  = (set_nodes (Array_remove (nodes h) (inr h)) h,
     drawn ∖ ({[node_circle node]} ∪ list_to_set (node_lines node))).
Proof.
  unfold removeNode. rewrite erase_lines. f_equal. set_solver.
Qed.

(** If [Array.remove] leaves an array alone when asked to remove a host from
    it, [removeNode] leaves the host's list as it is and [removeAllNodes]
    reaches every node before it empties the list. *)
Section HostIsLeftOut.

Hypothesis remove_host_is_identity :
  forall arr h, Array_remove arr (inr h) = arr.

Lemma removeNode_keeps_nodes (h : host_fields) (node : GraphBuilderNode)
      (drawn : gset nat) :
  fst (removeNode Array_remove h node drawn) = h.
Proof.
  rewrite removeNode_effect, remove_host_is_identity. destruct h; reflexivity.
Qed.

Lemma removeAllNodes_loop_visits_rest (fuel : nat) :
  forall (i : nat) (h : host_fields) (drawn : gset nat),
    (length (nodes h) - i < fuel)%nat ->
    removeAllNodes_loop Array_remove fuel i h drawn
    = Some (h, drawn ∖ shapes_of (drop i (nodes h))).
Proof.
  induction fuel as [|fuel IH]; intros i h drawn Hfuel; [lia|].
  cbn [removeAllNodes_loop].
  destruct (nodes h !! i) as [node|] eqn:Hi.
  - pose proof (lookup_lt_Some _ _ _ Hi) as Hlt.
    rewrite removeNode_effect, remove_host_is_identity.
    replace (set_nodes (nodes h) h) with h by (destruct h; reflexivity).
    rewrite IH by lia. rewrite (drop_S _ _ _ Hi).
    unfold shapes_of. cbn [fmap list_fmap union_list foldr].
    do 2 f_equal. set_solver.
  - apply lookup_ge_None in Hi. rewrite drop_ge by exact Hi.
    do 2 f_equal. unfold shapes_of. cbn. set_solver.
Qed.

Lemma removeAllNodes_visits_every_node (h : host_fields) (drawn : gset nat) :
  removeAllNodes Array_remove (S (length (nodes h))) h drawn
  = Some (set_nodes [] h, drawn ∖ shapes_of (nodes h)).
Proof.
  unfold removeAllNodes. rewrite removeAllNodes_loop_visits_rest by lia.
  reflexivity.
Qed.

End HostIsLeftOut.

End NodeRemoval.

(** A helper written [arr.splice(arr.indexOf(x), 1)] drops the last element
    when [x] is not in [arr] ([indexOf] is -1).  With such a helper each
    [removeNode] shortens the list by its last node, and [removeAllNodes] on
    four nodes stops after two, leaving the shapes 3 and 4 drawn. *)
Remark removeAllNodes_with_a_helper_dropping_the_last :
  let Array_remove := fun (arr : list Builder.GraphBuilderNode)
                          (_ : Builder.GraphBuilderNode + Builder.host_fields) =>
                        removelast arr in
  let node c := {| Builder.node_circle := c; Builder.node_lines := [] |} in
  let h := {| Builder.rx := 0; Builder.x := 12.5; Builder.color := "red";
              Builder.nodes := [node 1; node 2; node 3; node 4]%nat;
              Builder.host_rect := Builder.rect 25 25 "red" 0 0;
              Builder.host_line := Builder.line 12.5 30 12.5 500 |} in
  let drawn : gset nat := list_to_set [1; 2; 3; 4]%nat in
  Builder.nodes (fst (Builder.removeNode Array_remove h (node 1%nat) drawn))
  = [node 1; node 2; node 3]%nat
  /\ snd <$> Builder.removeAllNodes Array_remove 5 h drawn
     = Some (list_to_set [3; 4]%nat).
Proof. split; vm_compute; reflexivity. Qed.

(** ** Worked cases *)

Section Cases.

Import Visualization.
#[local] Open Scope float_scope.

(** One view, one visible host, a wide window: the quotient is +infinity,
    nothing is clamped, the host takes the whole middle width. *)
Example resize_one_view_one_host_wide :
  exists g' pg',
    resize one_host (window 1000) = Ok (0, g', pg')
    /\ view_width <$> views g' = [660]
    /\ graph_width pg' = Some 660.
Proof. eexists _, _. split; [vm_compute; reflexivity|]. split; reflexivity. Qed.

(** The same in a window too narrow for one square: the quotient is
    -infinity, the margin is clamped and [middleWidth] becomes 25. *)
Example resize_one_view_one_host_narrow :
  exists g' pg',
    resize one_host (window 350) = Ok (0, g', pg')
    /\ view_width <$> views g' = [25]
    /\ graph_width pg' = Some 25.
Proof. eexists _, _. split; [vm_compute; reflexivity|]. split; reflexivity. Qed.

(** Thirty hosts in a window leaving 460 pixels: -290 / 29 is below 25, so
    the margin is 25 and the graph grows to 25 * 29 + 30 * 25 = 1475. *)
Example resize_many_hosts_narrow_window :
  exists g' pg',
    resize (thirty_hosts []) (window 800) = Ok (25, g', pg')
    /\ view_width <$> views g' = [1475]
    /\ graph_width pg' = Some 1475.
Proof. eexists _, _. split; [vm_compute; reflexivity|]. split; reflexivity. Qed.

(** Two views, two of four hosts hidden: the margin is (660 - 50) / 2 = 305
    and both views get 2 * 330 - 305. *)
Example resize_two_views :
  exists g' pg',
    resize two_views (window 1000) = Ok (305, g', pg')
    /\ view_width <$> views g' = [355; 355]
    /\ graph_width pg' = Some 660.
Proof. eexists _, _. split; [vm_compute; reflexivity|]. split; reflexivity. Qed.

(** Without a host permutation [resize] throws before it sizes anything. *)
Example resize_without_permutation (vs : list View) (pg : page) :
  resize {| views := vs; hostPermutation := None |} pg = Throw TypeError.
Proof. reflexivity. Qed.

(** Both views hide [b]; it is listed once. *)
Example hidden_by_two_views_listed_once :
  length (filter (fun k => k = "b"%string) (Object_keys (getHiddenHosts two_views)))
  = 1%nat
  /\ length (Object_keys (getHiddenHosts two_views)) = 2%nat.
Proof. split; vm_compute; reflexivity. Qed.

(** [Object.keys] lists the keys that are array indices first, in ascending
    numeric order, then the others in the order in which they were created;
    [01] is not an array index. *)
Example Object_keys_lists_index_keys_first :
  Object_keys
    (getHiddenHosts
       {| views := [ {| view_hosts := []; view_width := 0;
                        view_hiddenHosts := ["b"; "10"; "01"; "a"; "2"; "b"] |} ];
          hostPermutation := None |})
  = ["2"; "10"; "b"; "01"; "a"]%string.
Proof. vm_compute. reflexivity. Qed.

(** Nine hidden hosts fill a row of eight and start a second one. *)
Example drawSideBar_nine_hidden :
  exists gr,
    drawSideBar (thirty_hosts (numbered_hosts 9)) (window 1000)
    = Ok (set_hidden true [gr] (window 1000))
    /\ grid_height gr = 55%Z
    /\ sq_x <$> grid_squares gr = [0; 30; 60; 90; 120; 150; 180; 210; 0]%Z
    /\ sq_y <$> grid_squares gr = [0; 0; 0; 0; 0; 0; 0; 0; 30]%Z.
Proof. eexists. split; [vm_compute; reflexivity|]. repeat split. Qed.

(** No hidden host: the section is hidden and holds no grid. *)
Example drawSideBar_none_hidden :
  drawSideBar one_host (window 1000) = Ok (set_hidden false [] (window 1000)).
Proof. reflexivity. Qed.

End Cases.

(** * Further properties *)

(** ** HSVtoRGB outside the six sectors *)

(** X1: [HSVtoRGB] does not wrap a hue whose sector index floor(6h) leaves
    a negative remainder modulo 6, nor one that has no sector index at all
    (NaN, the infinities): no [case] matches and the result is
    [rgb(NaN,NaN,NaN)] whatever the saturation and value. *)
Theorem HSVtoRGB_outside_the_sectors (h s v : float) :
  match JS.rem6 (JS.Math_floor (h * 6)) with
  | Some r => r < 0
  | None => True
  end ->
  HSVtoRGB h s v = "rgb(NaN,NaN,NaN)"%string.
Proof.
  intros H. unfold HSVtoRGB.
  destruct (JS.rem6 (JS.Math_floor (h * 6))) as [[|r|r]|]; try lia; reflexivity.
Qed.

(** A hue just below zero, the hue of a full negative turn less a sixth, and
    NaN. *)
Lemma HSVtoRGB_negative_hue :
  (match JS.rem6 (JS.Math_floor (-0.1 * 6)) with
   | Some r => r < 0
   | None => True
   end
   /\ HSVtoRGB (-0.1) 0.4 0.8 = "rgb(NaN,NaN,NaN)"%string)
  /\ HSVtoRGB nan 0.4 0.8 = "rgb(NaN,NaN,NaN)"%string.
Proof.
  split.
  - split; [vm_compute; reflexivity|].
    apply (HSVtoRGB_outside_the_sectors (-0.1) 0.4 0.8). vm_compute. reflexivity.
  - apply (HSVtoRGB_outside_the_sectors nan 0.4 0.8). vm_compute. exact I.
Defined.

(** ** Creating hosts one after the other *)

Section Hosts.

Import Builder.
#[local] Open Scope float_scope.

Lemma new_host_on_empty (hostNum : float) (pg : page) :
  colors pg = [] -> new_GraphBuilderHost hostNum pg = ({| fields := None |}, pg).
Proof. intros E. unfold new_GraphBuilderHost. rewrite E. reflexivity. Qed.

Lemma new_host_on_stack (hostNum : float) (pg : page) (cs : list string) (c : string) :
  colors pg = cs ++ [c] ->
  new_GraphBuilderHost hostNum pg
  = ({| fields := Some {| rx := hostNum * 65; x := hostNum * 65 + 12.5;
                          color := c; nodes := [];
                          host_rect := rect 25 25 c (hostNum * 65) 0;
                          host_line := line (hostNum * 65 + 12.5) 30
                                            (hostNum * 65 + 12.5) 500 |} |},
     {| colors := cs;
        add_disabled := match cs with [] => true | _ => add_disabled pg end;
        add_background := match last cs with
                          | Some c' => Some c'
                          | None => add_background pg
                          end;
        svg := line (hostNum * 65 + 12.5) 30 (hostNum * 65 + 12.5) 500
               :: rect 25 25 c (hostNum * 65) 0 :: svg pg |}).
Proof.
  intros E. unfold new_GraphBuilderHost.
  rewrite E, last_snoc_some, removelast_last, length_snoc_is_one.
  destruct cs; reflexivity.
Qed.

(** [k] creations on a stack whose colours are, top first, [stack]. *)
Lemma create_hosts_on_stack (k : nat) :
  forall (first : Z) (pg : page) (stack : list string),
    colors pg = reverse stack ->
    host_color <$> fst (create_hosts k first pg)
    = (Some <$> take k stack) ++ replicate (k - length stack) None
    /\ colors (snd (create_hosts k first pg)) = reverse (drop k stack)
    /\ add_disabled (snd (create_hosts k first pg))
       = (if decide (1 <= length stack <= k)%nat then true else add_disabled pg)
    /\ (exists shapes,
          svg (snd (create_hosts k first pg)) = shapes ++ svg pg
          /\ length shapes = (2 * Nat.min k (length stack))%nat).
Proof.
  induction k as [|k IH]; intros first pg stack E.
  - cbn [create_hosts fst snd fmap list_fmap take Nat.sub replicate app].
    rewrite drop_0. split; [reflexivity|]. split; [exact E|].
    split; [rewrite decide_False by lia; reflexivity|].
    exists []. split; reflexivity.
  - cbn [create_hosts]. destruct stack as [|c stack].
    + rewrite (new_host_on_empty _ pg E).
      specialize (IH (first + 1)%Z pg [] E).
      destruct (create_hosts k (first + 1)%Z pg) as [hs pg2].
      cbn [fst snd] in *. destruct IH as (Hc & Hs & Hd & shapes & Hsv & Hlen).
      rewrite take_nil in *. rewrite drop_nil in *.
      cbn [length Nat.sub] in *. rewrite Nat.sub_0_r in Hc.
      split; [cbn; rewrite Hc; reflexivity|].
      split; [exact Hs|].
      split; [rewrite Hd; rewrite !decide_False by lia; reflexivity|].
      exists shapes. split; [exact Hsv|]. rewrite Hlen. lia.
    + rewrite reverse_cons in E.
      rewrite (new_host_on_stack _ pg (reverse stack) c E).
      match goal with
      | |- context [create_hosts k ?f ?p] =>
          specialize (IH f p stack eq_refl);
          destruct (create_hosts k f p) as [hs pg2]
      end.
      cbn [fst snd colors add_disabled svg] in *.
      destruct IH as (Hc & Hs & Hd & shapes & Hsv & Hlen).
      split; [cbn; rewrite Hc; reflexivity|].
      split; [exact Hs|].
      split.
      * rewrite Hd. cbn [length].
        destruct stack as [|c' stack]; cbn [reverse length].
        -- rewrite decide_False by lia. rewrite decide_True by lia. reflexivity.
        -- assert (Hne : reverse (c' :: stack) <> []).
           { intros Hnil. apply (f_equal length) in Hnil.
             rewrite length_reverse in Hnil. discriminate. }
           destruct (reverse (c' :: stack)) as [|? ?]; [congruence|].
           cbn [length].
           destruct (decide (1 <= S (length stack) <= k)%nat);
             [rewrite decide_True by lia|rewrite decide_False by lia]; reflexivity.
      * eexists (shapes ++ [_; _]). split.
        -- rewrite Hsv, <- app_assoc. reflexivity.
        -- rewrite length_app, Hlen. cbn [length]. lia.
Qed.

Lemma snoc_or_nil {A} (l : list A) : l = [] \/ exists l' a, l = l' ++ [a].
Proof.
  induction l as [|a l _] using rev_ind; [left; reflexivity|right; eauto].
Qed.

(** X2: the stack is handed out last in, first out, whatever it holds (the
    loaded palette or colours pushed back later).  Of [k] hosts created in a
    row, the first [min k n] get the [n] stacked colours from the top down,
    each colour once; the others get none.  The stack keeps its bottom
    [n - k] colours in place. *)
Theorem hosts_take_colours_from_the_top (k : nat) (first : Z) (pg : page) :
  let created := create_hosts k first pg in
  host_color <$> fst created
  = (Some <$> take k (reverse (colors pg)))
    ++ replicate (k - length (colors pg)) None
  /\ colors (snd created) = take (length (colors pg) - k) (colors pg).
Proof.
  intros created.
  destruct (create_hosts_on_stack k first pg (reverse (colors pg)))
    as (Hc & Hs & _); [rewrite reverse_involutive; reflexivity|].
  rewrite length_reverse in Hc. split; [exact Hc|].
  subst created. rewrite Hs.
  rewrite <- (reverse_involutive (colors pg)) at 2 3.
  rewrite take_reverse, !length_reverse.
  replace (length (colors pg) - (length (colors pg) - k))%nat
    with (Nat.min k (length (colors pg))) by lia.
  destruct (Nat.le_ge_cases k (length (colors pg))) as [Hle|Hge].
  - rewrite Nat.min_l by exact Hle. reflexivity.
  - rewrite Nat.min_r by exact Hge.
    rewrite !drop_ge by (rewrite length_reverse; lia). reflexivity.
Qed.

(** X3: creating hosts disables the add button exactly when it takes the
    last colour: after [k] creations on a stack of [n] colours the button is
    disabled if [1 <= n <= k] and otherwise as it was.  In particular the
    constructor never enables the button, and on a stack that was already
    empty it does not disable it either. *)
Theorem add_button_disabled_with_the_last_colour (k : nat) (first : Z) (pg : page) :
  add_disabled (snd (create_hosts k first pg))
  = if decide (1 <= length (colors pg) <= k)%nat then true else add_disabled pg.
Proof.
  destruct (create_hosts_on_stack k first pg (reverse (colors pg)))
    as (_ & _ & Hd & _); [rewrite reverse_involutive; reflexivity|].
  rewrite length_reverse in Hd. exact Hd.
Qed.

Lemma svg_after_new_host (hostNum : float) (pg : page) :
  svg (snd (new_GraphBuilderHost hostNum pg))
  = host_shapes (fst (new_GraphBuilderHost hostNum pg)) ++ svg pg
  /\ forall f,
       fields (fst (new_GraphBuilderHost hostNum pg)) = Some f ->
       rx f = hostNum * 65
       /\ x f = hostNum * 65 + 12.5
       /\ host_rect f = rect 25 25 (color f) (hostNum * 65) 0
       /\ host_line f = line (hostNum * 65 + 12.5) 30 (hostNum * 65 + 12.5) 500.
Proof.
  destruct (snoc_or_nil (colors pg)) as [E|(cs & c & E)].
  - rewrite (new_host_on_empty _ _ E). split; [reflexivity|]. discriminate.
  - rewrite (new_host_on_stack _ _ _ _ E). split; [reflexivity|].
    intros f [= <-]. repeat split.
Qed.

Lemma create_hosts_shapes (k : nat) :
  forall (first : Z) (pg : page),
    svg (snd (create_hosts k first pg))
    = concat (reverse (host_shapes <$> fst (create_hosts k first pg))) ++ svg pg
    /\ forall (i : nat) (h : GraphBuilderHost) (f : host_fields),
         fst (create_hosts k first pg) !! i = Some h ->
         fields h = Some f ->
         rx f = JS.of_Z (first + Z.of_nat i) * 65
         /\ x f = JS.of_Z (first + Z.of_nat i) * 65 + 12.5
         /\ host_rect f = rect 25 25 (color f) (JS.of_Z (first + Z.of_nat i) * 65) 0
         /\ host_line f
            = line (JS.of_Z (first + Z.of_nat i) * 65 + 12.5) 30
                   (JS.of_Z (first + Z.of_nat i) * 65 + 12.5) 500.
Proof.
  induction k as [|k IH]; intros first pg.
  - split; [reflexivity|]. intros i h f Hi. discriminate.
  - cbn [create_hosts].
    pose proof (svg_after_new_host (JS.of_Z first) pg) as (Hsvg & Hf).
    destruct (new_GraphBuilderHost (JS.of_Z first) pg) as [h pg1].
    specialize (IH (first + 1)%Z pg1). destruct IH as (IHsvg & IHf).
    destruct (create_hosts k (first + 1)%Z pg1) as [hs pg2].
    cbn [fst snd] in *. split.
    + rewrite IHsvg, Hsvg. cbn [fmap list_fmap].
      rewrite reverse_cons, concat_app. cbn [concat].
      rewrite app_nil_r, <- app_assoc. reflexivity.
    + intros [|i] h' f Hi Hfields.
      * injection Hi as <-. rewrite Z.add_0_r. apply Hf. exact Hfields.
      * replace (first + Z.of_nat (S i))%Z with (first + 1 + Z.of_nat i)%Z by lia.
        exact (IHf i h' f Hi Hfields).
Qed.

(** X4: creating hosts only adds to the drawing surface: the shapes that
    were on it stay, in the same order, behind the shapes of the hosts
    created, the latest host's first.  A host that got a colour adds its line
    in front of its square; host number [n] has a 25 x 25 square of its colour
    at [x = n * 65], [y = 0] and a line from [(n * 65 + 12.5, 30)] to
    [(n * 65 + 12.5, 500)].  A host that got no colour draws nothing.  The
    number of hosts that draw is [min k n] for [k] creations on a stack of [n]
    colours. *)
Theorem hosts_draw_in_front_of_the_surface (k : nat) (first : Z) (pg : page) :
  let created := create_hosts k first pg in
  svg (snd created) = concat (reverse (host_shapes <$> fst created)) ++ svg pg
  /\ (forall (i : nat) (h : GraphBuilderHost),
        fst created !! i = Some h ->
        match fields h with
        | None => host_shapes h = []
        | Some f =>
            host_shapes h
            = [ line (JS.of_Z (first + Z.of_nat i) * 65 + 12.5) 30
                     (JS.of_Z (first + Z.of_nat i) * 65 + 12.5) 500;
                rect 25 25 (color f) (JS.of_Z (first + Z.of_nat i) * 65) 0 ]
        end)
  /\ length (svg (snd created))
     = (2 * Nat.min k (length (colors pg)) + length (svg pg))%nat.
Proof.
  intros created. subst created.
  destruct (create_hosts_shapes k first pg) as (Hsvg & Hf).
  split; [exact Hsvg|]. split.
  - intros i h Hi. unfold host_shapes.
    destruct (fields h) as [f|] eqn:E; [|reflexivity].
    destruct (Hf i h f Hi E) as (_ & _ & Hr & Hl). rewrite Hr, Hl. reflexivity.
  - destruct (create_hosts_on_stack k first pg (reverse (colors pg)))
      as (_ & _ & _ & shapes & Hsv & Hlen);
      [rewrite reverse_involutive; reflexivity|].
    rewrite length_reverse in Hlen. rewrite Hsv, length_app, Hlen. reflexivity.
Qed.

(** X5: the background the constructor gives the add button is the colour
    the next host gets: whenever a host created right after another one gets a
    colour, that colour is the button's background in between. *)
Theorem add_button_previews_the_next_colour
        (hostNum hostNum' : float) (pg : page) (c : string) :
  let pg1 := snd (new_GraphBuilderHost hostNum pg) in
  host_color (fst (new_GraphBuilderHost hostNum' pg1)) = Some c ->
  add_background pg1 = Some c.
Proof.
  intros pg1. subst pg1.
  destruct (snoc_or_nil (colors pg)) as [E|(cs & c0 & E)].
  - rewrite (new_host_on_empty _ _ E). cbn [snd].
    rewrite (new_host_on_empty _ _ E). discriminate.
  - rewrite (new_host_on_stack _ _ _ _ E). cbn [snd].
    destruct (snoc_or_nil cs) as [->|(cs' & c1 & ->)].
    + rewrite new_host_on_empty by reflexivity. discriminate.
    + rewrite (new_host_on_stack _ _ cs' c1) by reflexivity.
      cbn. rewrite last_snoc_some. tauto.
Qed.

(** On the loaded palette: the first host takes the last colour pushed, and
    the button shows the colour the second host then gets. *)
Lemma add_button_previews_the_second_colour :
  host_color
    (fst (new_GraphBuilderHost 1
            (snd (new_GraphBuilderHost 0 (loaded_page false None [])))))
  = Some "rgb(122,144,204)"%string
  /\ add_background (snd (new_GraphBuilderHost 0 (loaded_page false None [])))
     = Some "rgb(122,144,204)"%string.
Proof.
  split; [vm_compute; reflexivity|].
  apply (add_button_previews_the_next_colour 0 1 (loaded_page false None [])).
  vm_compute. reflexivity.
Defined.

End Hosts.

(** ** Nodes of a host *)

Section Nodes.

Import Builder.

Lemma addNodes_initialised (ns : list GraphBuilderNode) :
  forall f : host_fields,
    addNodes ns {| fields := Some f |}
    = Ok {| fields := Some {| rx := rx f; x := x f; color := color f;
                              nodes := nodes f ++ ns;
                              host_rect := host_rect f;
                              host_line := host_line f |} |}.
Proof.
  induction ns as [|node ns IH]; intros f; cbn [addNodes addNode fields].
  - rewrite app_nil_r. destruct f; reflexivity.
  - rewrite IH. cbn [rx x color nodes host_rect host_line].
    rewrite <- app_assoc. reflexivity.
Qed.

(** X6: nodes added to a host that got a colour are kept in the order in
    which they were added, and the host keeps its colour; a host created when
    no colour was left has no node list, and adding a node to it throws. *)
Theorem nodes_are_kept_in_order_or_refused
        (hostNum : float) (pg : page) (node : GraphBuilderNode)
        (ns : list GraphBuilderNode) :
  let h := fst (new_GraphBuilderHost hostNum pg) in
  match last (colors pg) with
  | None => addNodes (node :: ns) h = Throw TypeError
  | Some c =>
      exists h',
        addNodes (node :: ns) h = Ok h'
        /\ nodes <$> fields h' = Some (node :: ns)
        /\ host_color h' = Some c
  end.
Proof.
  intros h. subst h.
  destruct (snoc_or_nil (colors pg)) as [E|(cs & c & E)].
  - rewrite (new_host_on_empty _ _ E), E. reflexivity.
  - rewrite (new_host_on_stack _ _ _ _ E), E, last_snoc_some.
    cbn [fst]. rewrite addNodes_initialised.
    eexists. split; [reflexivity|]. split; reflexivity.
Qed.

Section AnyHelper.

Variable Array_remove :
  list GraphBuilderNode -> GraphBuilderNode + host_fields -> list GraphBuilderNode.

(** X7: whatever [Array.remove] does, [removeNode(node)] takes exactly the
    circle and the lines of [node] off the surface, and what it does to the
    host does not depend on [node]: the list is handed to [Array.remove]
    together with the host itself, so removing one node or another leaves the
    host in the same state. *)
Theorem removeNode_erases_the_node_and_ignores_it_in_the_list
        (h : host_fields) (node other : GraphBuilderNode) (drawn : gset nat) :
  (forall s,
      s ∈ snd (removeNode Array_remove h node drawn)
      <-> s ∈ drawn /\ s <> node_circle node /\ s ∉ node_lines node)
  /\ fst (removeNode Array_remove h node drawn)
     = fst (removeNode Array_remove h other drawn)
  /\ nodes (fst (removeNode Array_remove h node drawn))
     = Array_remove (nodes h) (inr h)
  /\ color (fst (removeNode Array_remove h node drawn)) = color h.
Proof.
  rewrite !removeNode_effect. cbn [fst snd].
  split; [|repeat split].
  intros s. set_solver.
Qed.

Lemma shapes_of_sublist (l1 l2 : list GraphBuilderNode) :
  l1 `sublist_of` l2 -> shapes_of l1 ⊆ shapes_of l2.
Proof.
  intros Hsub s. unfold shapes_of. rewrite !elem_of_union_list.
  intros (X & HX & Hs). exists X. split; [|exact Hs].
  apply list_elem_of_fmap in HX as (n & -> & Hn).
  apply list_elem_of_fmap. exists n. split; [reflexivity|].
  eapply elem_of_sublist; eauto.
Qed.

Lemma shapes_of_node (l : list GraphBuilderNode) (i : nat) (n : GraphBuilderNode) :
  l !! i = Some n ->
  {[node_circle n]} ∪ list_to_set (node_lines n) ⊆ shapes_of l.
Proof.
  intros Hi s Hs. unfold shapes_of. apply elem_of_union_list.
  eexists. split; [|exact Hs].
  apply list_elem_of_fmap. exists n. split; [reflexivity|].
  eapply list_elem_of_lookup_2; eauto.
Qed.

Section HelperOnlyRemoves.

Hypothesis only_removes :
  forall arr x, Array_remove arr x `sublist_of` arr.

Lemma removeAllNodes_loop_finishes (fuel : nat) :
  forall (i : nat) (h : host_fields) (drawn : gset nat),
    (length (nodes h) - i < fuel)%nat ->
    exists h' drawn',
      removeAllNodes_loop Array_remove fuel i h drawn = Some (h', drawn')
      /\ set_nodes [] h' = set_nodes [] h
      /\ drawn' ⊆ drawn
      /\ (drawn ∖ shapes_of (nodes h)) ⊆ drawn'
      /\ (forall n, nodes h !! i = Some n ->
                    drawn' ## ({[node_circle n]} ∪ list_to_set (node_lines n))).
Proof.
  induction fuel as [|fuel IH]; intros i h drawn Hfuel; [lia|].
  cbn [removeAllNodes_loop].
  destruct (nodes h !! i) as [node|] eqn:Hi.
  - rewrite removeNode_effect.
    pose proof (only_removes (nodes h) (inr h)) as Hsub.
    pose proof (sublist_length _ _ Hsub) as Hlen.
    pose proof (shapes_of_sublist _ _ Hsub) as Hshapes.
    pose proof (shapes_of_node _ _ _ Hi) as Hnode.
    pose proof (lookup_lt_Some _ _ _ Hi) as Hlt.
    destruct (IH (S i) (set_nodes (Array_remove (nodes h) (inr h)) h)
                 (drawn ∖ ({[node_circle node]} ∪ list_to_set (node_lines node))))
      as (h' & drawn' & Hrun & Hh & Hin & Hout & _).
    { cbn [set_nodes nodes]. lia. }
    exists h', drawn'. split; [exact Hrun|].
    split; [rewrite Hh; destruct h; reflexivity|].
    cbn [set_nodes nodes] in Hout.
    split; [set_solver|]. split; [set_solver|].
    intros n Hn. injection Hn as <-. set_solver.
  - exists h, drawn. split; [reflexivity|]. split; [reflexivity|].
    split; [set_solver|]. split; [set_solver|]. intros n Hn. discriminate.
Qed.

(** X8: if [Array.remove] only ever removes elements (what it returns is a
    sublist of the array it was given), [removeAllNodes] ends within one turn
    per node and leaves the host with an empty list and its other fields as
    they were.  It erases the shapes of the first node, erases no shape that
    is not of one of the host's nodes, and draws nothing. *)
Theorem removeAllNodes_ends_with_an_empty_list (h : host_fields) (drawn : gset nat) :
  exists drawn',
    removeAllNodes Array_remove (S (length (nodes h))) h drawn
    = Some (set_nodes [] h, drawn')
    /\ drawn' ⊆ drawn
    /\ (drawn ∖ shapes_of (nodes h)) ⊆ drawn'
    /\ (forall n, head (nodes h) = Some n ->
                  (node_circle n ∉ drawn')
                  /\ (forall l, l ∈ node_lines n -> l ∉ drawn')).
Proof.
  destruct (removeAllNodes_loop_finishes (S (length (nodes h))) 0 h drawn)
    as (h' & drawn' & Hrun & Hh & Hin & Hout & Hfirst); [lia|].
  exists drawn'. unfold removeAllNodes. rewrite Hrun, Hh.
  split; [reflexivity|]. split; [exact Hin|]. split; [exact Hout|].
  intros n Hn. rewrite head_lookup in Hn. specialize (Hfirst n Hn).
  split; [set_solver|]. intros l Hl. set_solver.
Qed.

End HelperOnlyRemoves.

End AnyHelper.

(** With a helper that drops the last element, on a host with two nodes and
    a surface that also holds a shape 99 of something else. *)
Lemma removeAllNodes_of_two_nodes :
  (forall (arr : list GraphBuilderNode) (x : GraphBuilderNode + host_fields),
      removelast arr `sublist_of` arr)
  /\ exists drawn',
       removeAllNodes (fun arr _ => removelast arr)
                      (S (length (nodes two_node_host))) two_node_host
                      (list_to_set [1; 2; 10; 11; 99]%nat)
       = Some (set_nodes [] two_node_host, drawn')
       /\ drawn' ⊆ list_to_set [1; 2; 10; 11; 99]%nat
       /\ (list_to_set [1; 2; 10; 11; 99]%nat ∖ shapes_of (nodes two_node_host))
           ⊆ drawn'
       /\ (forall n, head (nodes two_node_host) = Some n ->
                     (node_circle n ∉ drawn')
                     /\ (forall l, l ∈ node_lines n -> l ∉ drawn')).
Proof.
  assert (H : forall (arr : list GraphBuilderNode)
                     (x : GraphBuilderNode + host_fields),
             removelast arr `sublist_of` arr).
  { intros arr _. induction arr as [|a [|b arr] IH]; cbn.
    - reflexivity.
    - apply sublist_nil_l.
    - apply sublist_skip. exact IH. }
  split; [exact H|].
  exact (removeAllNodes_ends_with_an_empty_list
           (fun arr _ => removelast arr) H two_node_host
           (list_to_set [1; 2; 10; 11; 99]%nat)).
Defined.

End Nodes.

(** ** More on resize *)

Section ResizeAgain.

Import Visualization.
#[local] Open Scope float_scope.

Lemma getHiddenHosts_of_hidden (vs vs' : list View) (hp hp' : option HostPermutation) :
  view_hiddenHosts <$> vs = view_hiddenHosts <$> vs' ->
  getHiddenHosts {| views := vs; hostPermutation := hp |}
  = getHiddenHosts {| views := vs'; hostPermutation := hp' |}.
Proof.
  unfold getHiddenHosts. cbn [views]. generalize JSObject.empty.
  revert vs'. induction vs as [|v vs IH]; intros [|v' vs'] acc E;
    try discriminate; [reflexivity|].
  injection E as Ev Evs. cbn [foldl]. rewrite Ev. apply IH. exact Evs.
Qed.

Lemma hidden_union_of_hidden (vs vs' : list View) (hp hp' : option HostPermutation) :
  view_hiddenHosts <$> vs = view_hiddenHosts <$> vs' ->
  hidden_union {| views := vs; hostPermutation := hp |}
  = hidden_union {| views := vs'; hostPermutation := hp' |}.
Proof.
  unfold hidden_union. cbn [views]. revert vs'.
  induction vs as [|v vs IH]; intros [|v' vs'] E; try discriminate; [reflexivity|].
  injection E as Ev Evs. cbn [fmap list_fmap union_list foldr].
  rewrite Ev. f_equal. apply IH. exact Evs.
Qed.

Lemma hidden_of_resized (f : View -> float) (vs : list View) :
  view_hiddenHosts <$> map (fun view => setWidth (f view) view) vs
  = view_hiddenHosts <$> vs.
Proof. induction vs as [|v vs IH]; cbn; [reflexivity|]. f_equal. exact IH. Qed.

Lemma hosts_of_resized (f : View -> float) (vs : list View) :
  view_hosts <$> map (fun view => setWidth (f view) view) vs
  = view_hosts <$> vs.
Proof. induction vs as [|v vs IH]; cbn; [reflexivity|]. f_equal. exact IH. Qed.

Lemma resize_result_is_fixed (vs : list View) (hp : HostPermutation) (pg : page) :
  forall margin g' pg',
    resize {| views := vs; hostPermutation := Some hp |} pg = Ok (margin, g', pg') ->
    resize g' pg' = Ok (margin, g', pg')
    /\ length (views g') = length vs
    /\ view_hosts <$> views g' = view_hosts <$> vs
    /\ view_hiddenHosts <$> views g' = view_hiddenHosts <$> vs
    /\ hostPermutation g' = Some hp
    /\ getHiddenHosts g' = getHiddenHosts {| views := vs; hostPermutation := Some hp |}
    /\ measured_middleWidth pg' = measured_middleWidth pg
    /\ set_hidden (hidden_shown pg) (hidden_svg pg) pg' = pg'
    /\ sidebar_width pg' = sidebar_width pg.
Proof.
  intros margin g' pg' R0.
  pose proof (resize_with_permutation vs hp pg) as R. cbv zeta in R.
  set (g := {| views := vs; hostPermutation := Some hp |}) in *.
  set (l := compute_layout (measured_middleWidth pg) (visibleHosts g hp)
                           (Z.of_nat (length vs))) in *.
  set (F := fun view => setWidth (JS.of_Z (kept_count g view) * widthPerHost l
                                  - hostMargin l) view) in *.
  rewrite R in R0. injection R0 as <- <- <-.
  assert (Hhid : getHiddenHosts {| views := map F vs; hostPermutation := Some hp |}
                 = getHiddenHosts g).
  { apply getHiddenHosts_of_hidden. apply hidden_of_resized. }
  cbn [views hostPermutation].
  split; [|split; [apply length_map|
           split; [apply hosts_of_resized|split; [apply hidden_of_resized|]]]].
  2:{ split; [reflexivity|]. split; [exact Hhid|]. repeat split. }
  rewrite resize_with_permutation. cbv zeta.
  unfold visibleHosts. rewrite Hhid. fold (visibleHosts g hp).
  rewrite length_map.
  change (measured_middleWidth _) with (measured_middleWidth pg). fold l.
  match goal with
  | |- context [map ?G (map F vs)] =>
      replace (map G (map F vs)) with (map F vs); [reflexivity|]
  end.
  rewrite map_map. apply map_ext. intros view.
  unfold kept_count. rewrite Hhid. reflexivity.
Qed.

Lemma resize_succeeds (vs : list View) (hp : HostPermutation) (pg : page) :
  exists margin g' pg',
    resize {| views := vs; hostPermutation := Some hp |} pg = Ok (margin, g', pg').
Proof. rewrite resize_with_permutation. cbv zeta. eauto. Qed.

(** X9: [resize] only changes widths, and running it again changes nothing:
    after a [resize] the views have the hosts and hidden hosts they had, in
    the same order, the hidden set and the measured widths of the document
    are as before, and a second [resize] returns the same margin and leaves
    the object and the document exactly as the first did. *)
Theorem resize_twice_is_resize_once
        (vs : list View) (hp : HostPermutation) (pg : page) :
  exists margin g' pg',
    resize {| views := vs; hostPermutation := Some hp |} pg = Ok (margin, g', pg')
    /\ resize g' pg' = Ok (margin, g', pg')
    /\ view_hosts <$> views g' = view_hosts <$> vs
    /\ view_hiddenHosts <$> views g' = view_hiddenHosts <$> vs
    /\ hostPermutation g' = Some hp
    /\ getHiddenHosts g' = getHiddenHosts {| views := vs; hostPermutation := Some hp |}
    /\ measured_middleWidth pg' = measured_middleWidth pg
    /\ hidden_shown pg' = hidden_shown pg
    /\ hidden_svg pg' = hidden_svg pg.
Proof.
  destruct (resize_succeeds vs hp pg) as (margin & g' & pg' & R).
  destruct (resize_result_is_fixed vs hp pg _ _ _ R)
    as (R2 & _ & Hh & Hhid & Hp & Hg & Hm & Hs & _).
  exists margin, g', pg'. repeat (split; [assumption|]).
  rewrite <- Hs. split; reflexivity.
Qed.

(** X10: [resize] never returns a margin that is a number below 25, except
    0, which it returns exactly when one host is visible. *)
Theorem resize_margin_is_zero_or_not_below_25
        (vs : list View) (hp : HostPermutation) (pg : page) :
  let g := {| views := vs; hostPermutation := Some hp |} in
  exists margin g' pg',
    resize g pg = Ok (margin, g', pg')
    /\ (visibleHosts g hp = 1%Z -> margin = 0)
    /\ (visibleHosts g hp <> 1%Z -> (margin <? 25) = false).
Proof.
  intros g.
  pose proof (resize_with_permutation vs hp pg) as R. cbv zeta in R. fold g in R.
  eexists _, _, _. split; [exact R|].
  rewrite compute_layout_cases. cbv zeta.
  destruct (_ <? 25) eqn:Hq; cbn [hostMargin]; split; intros Hv.
  - apply Z.eqb_eq in Hv. rewrite Hv. reflexivity.
  - apply Z.eqb_neq in Hv. rewrite Hv. reflexivity.
  - apply Z.eqb_eq in Hv. rewrite Hv. reflexivity.
  - apply Z.eqb_neq in Hv. rewrite Hv. exact Hq.
Qed.

Lemma hidden_union_snoc (vs : list View) (view : View) (hp hp' : option HostPermutation) :
  hidden_union {| views := vs ++ [view]; hostPermutation := hp |}
  = hidden_union {| views := vs; hostPermutation := hp' |}
    ∪ list_to_set (view_hiddenHosts view).
Proof.
  unfold hidden_union. cbn [views].
  rewrite fmap_app, union_list_app_L. cbn. set_solver.
Qed.

(** X11: [addView] always appends the view, also when it throws.  It throws
    (a TypeError) exactly when no host permutation is set, and then the list
    with the new view at its end is all that has changed.  Otherwise the views
    are the old ones followed by the new one, hosts and hidden hosts as given,
    all resized.  Either way the hidden set grows by the hidden hosts of the
    new view and loses nothing. *)
Theorem addView_appends_even_when_it_throws
        (view : View) (vs : list View) (permutation : option HostPermutation)
        (pg : page) :
  let g := {| views := vs; hostPermutation := permutation |} in
  let after := addView view g pg in
  view_hosts <$> views (fst (fst after)) = view_hosts <$> (vs ++ [view])
  /\ view_hiddenHosts <$> views (fst (fst after))
     = view_hiddenHosts <$> (vs ++ [view])
  /\ hostPermutation (fst (fst after)) = permutation
  /\ hidden_union (fst (fst after))
     = hidden_union g ∪ list_to_set (view_hiddenHosts view)
  /\ snd after = match permutation with
                 | None => Some TypeError
                 | Some _ => None
                 end
  /\ (permutation = None ->
      after = ({| views := vs ++ [view]; hostPermutation := None |}, pg,
               Some TypeError))
  /\ (forall hp, permutation = Some hp ->
      resize {| views := vs ++ [view]; hostPermutation := Some hp |} pg
      = Ok (hostMargin
              (compute_layout (measured_middleWidth pg)
                 (visibleHosts {| views := vs ++ [view];
                                  hostPermutation := Some hp |} hp)
                 (Z.of_nat (length vs) + 1)),
            fst (fst after), snd (fst after))).
Proof.
  intros g after. subst after g. unfold addView. cbn [views hostPermutation].
  destruct permutation as [hp|].
  - destruct (resize_succeeds (vs ++ [view]) hp pg) as (margin & g' & pg' & R).
    rewrite R. cbn [fst snd].
    destruct (resize_result_is_fixed _ hp pg _ _ _ R)
      as (_ & _ & Hh & Hhid & Hp & _).
    split; [exact Hh|]. split; [exact Hhid|]. split; [exact Hp|].
    split.
    { destruct g' as [vs' hp']. cbn [views] in Hhid.
      rewrite (hidden_union_of_hidden vs' (vs ++ [view]) hp' (Some hp) Hhid).
      apply hidden_union_snoc. }
    split; [reflexivity|]. split; [discriminate|].
    intros hp0 E. assert (hp0 = hp) by congruence. subst hp0. rewrite R.
    rewrite resize_with_permutation in R. cbv zeta in R.
    injection R as <- _ _. rewrite length_app, Nat2Z.inj_add. reflexivity.
  - cbn [resize hostPermutation fst snd views].
    split; [reflexivity|]. split; [reflexivity|]. split; [reflexivity|].
    split; [apply hidden_union_snoc|].
    split; [reflexivity|]. split; [reflexivity|]. discriminate.
Qed.

(** X12: [revert] empties the object whatever it held: no view is left and
    no host permutation, so [getHiddenHosts] has no key, [drawSideBar] hides
    the hidden-host section, [resize] throws and [addView] throws after
    appending, until a host permutation is set again; with one set, [resize]
    runs on the empty list.  The reverted object is not the object the
    constructor builds: it has a property [hiddenHosts], an empty array. *)
Theorem revert_empties_the_object (o : Global_properties) (pg : page) :
  let g := global (revert o) in
  views g = []
  /\ hostPermutation g = None
  /\ hiddenHosts_property (revert o) = Some []
  /\ revert o <> constructed
  /\ global (revert o) = global constructed
  /\ Object_keys (getHiddenHosts g) = []
  /\ (exists pg',
        drawSideBar g pg = Ok pg'
        /\ hidden_shown pg' = false /\ hidden_svg pg' = [])
  /\ resize g pg = Throw TypeError
  /\ (forall view,
        addView view g pg
        = ({| views := [view]; hostPermutation := None |}, pg, Some TypeError))
  /\ (forall hp, exists margin pg',
        resize (setHostPermutation hp g) pg
        = Ok (margin, {| views := []; hostPermutation := Some hp |}, pg')).
Proof.
  intros g. subst g.
  split; [reflexivity|]. split; [reflexivity|]. split; [reflexivity|].
  split; [discriminate|]. split; [reflexivity|]. split; [reflexivity|].
  split; [eexists; split; [reflexivity|split; reflexivity]|].
  split; [reflexivity|]. split; [reflexivity|].
  intros hp. eexists _, _. reflexivity.
Qed.

End ResizeAgain.

(** ** More on drawSideBar *)

Section SideBarAgain.

Import Visualization.
#[local] Open Scope Z_scope.

Lemma drawSideBar_cases (g : Global) (pg : page) :
  drawSideBar g pg
  = if decide (hidden_keys g = ∅) then Ok (set_hidden false [] pg)
    else match hostPermutation g with
         | None => Throw TypeError
         | Some hp =>
             Ok (set_hidden true
                   [ {| grid_width := sidebar_width pg;
                        grid_height :=
                          Math_ceil_div (Z.of_nat (size (hidden_keys g))) hostsPerLine
                          * (HOST_SQUARE_SIZE + 5) - 5;
                        grid_class := "hidden-hosts";
                        grid_squares :=
                          imap (square_at (perm_color hp))
                               (Object_keys (getHiddenHosts g)) |} ]
                   pg)
         end.
Proof.
  unfold drawSideBar. cbv zeta. rewrite hidden_host_count.
  destruct (decide (hidden_keys g = ∅)) as [E|E].
  - rewrite E, size_empty. reflexivity.
  - assert (Hs : size (hidden_keys g) <> 0%nat).
    { intros H0. apply E, leibniz_equiv, size_empty_inv. exact H0. }
    destruct (Z.leb_spec (Z.of_nat (size (hidden_keys g))) 0); [lia|].
    destruct (hostPermutation g); [|reflexivity].
    rewrite drawn_squares. reflexivity.
Qed.

(** X13: [drawSideBar] sees the hidden hosts that are keys of the object
    [getHiddenHosts] returns: those hidden by some view, except a host called
    [__proto__].  It throws exactly when there is such a host and no host
    permutation is set, and what it throws is a TypeError.  When it returns,
    the hidden-host section is shown iff there is such a host, and holds one
    grid then and none otherwise, whatever it held before; the rest of the
    document is untouched; and running it again on the result changes
    nothing. *)
Theorem drawSideBar_replaces_the_grid (g : Global) (pg : page) :
  match drawSideBar g pg with
  | Throw e =>
      e = TypeError /\ hostPermutation g = None /\ hidden_keys g <> ∅
  | Ok pg' =>
      (hostPermutation g = None -> hidden_keys g = ∅)
      /\ hidden_shown pg' = bool_decide (hidden_keys g <> ∅)
      /\ length (hidden_svg pg') = (if hidden_shown pg' then 1 else 0)%nat
      /\ set_hidden (hidden_shown pg) (hidden_svg pg) pg' = pg
      /\ drawSideBar g pg' = Ok pg'
  end.
Proof.
  rewrite drawSideBar_cases.
  destruct (decide (hidden_keys g = ∅)) as [E|E].
  - split; [auto|]. split; [rewrite bool_decide_false by tauto; reflexivity|].
    split; [reflexivity|]. split; [destruct pg; reflexivity|].
    rewrite drawSideBar_cases, decide_True by exact E. reflexivity.
  - destruct (hostPermutation g) as [hp|] eqn:Hp; [|auto].
    split; [discriminate|].
    split; [rewrite bool_decide_true by exact E; reflexivity|].
    split; [reflexivity|]. split; [destruct pg; reflexivity|].
    rewrite drawSideBar_cases, decide_False, Hp by exact E. reflexivity.
Qed.

(** X14: the squares [drawSideBar] draws lie inside the grid, which is as
    wide as the sidebar (240) and as high as the grid's [height], and no two
    of them overlap: two different squares are at least a cell (30 pixels)
    apart horizontally or vertically, while each is 25 wide and high. *)
Theorem hidden_host_squares_fit_and_do_not_overlap
        (g : Global) (pg pg' : page) (gr : grid) :
  drawSideBar g pg = Ok pg' ->
  gr ∈ hidden_svg pg' ->
  (forall sq,
      sq ∈ grid_squares gr ->
      sq_width sq = 25 /\ sq_height sq = 25
      /\ 0 <= sq_x sq /\ sq_x sq + sq_width sq <= SIDE_BAR_WIDTH
      /\ 0 <= sq_y sq /\ sq_y sq + sq_height sq <= grid_height gr)
  /\ (forall (i j : nat) (a b : square),
        i <> j ->
        grid_squares gr !! i = Some a ->
        grid_squares gr !! j = Some b ->
        30 <= Z.abs (sq_x a - sq_x b) \/ 30 <= Z.abs (sq_y a - sq_y b)).
Proof.
  rewrite drawSideBar_cases.
  destruct (decide (hidden_keys g = ∅)) as [E|E].
  { intros [= <-] Hgr. cbn in Hgr. apply elem_of_nil in Hgr. contradiction. }
  destruct (hostPermutation g) as [hp|]; [|discriminate].
  intros [= <-] Hgr. cbn [set_hidden hidden_svg] in Hgr.
  apply list_elem_of_singleton in Hgr. subst gr.
  cbn [grid_squares grid_height].
  rewrite <- hidden_host_count.
  set (hh := Object_keys (getHiddenHosts g)).
  pose proof (Math_ceil_div_8 (Z.of_nat (length hh))) as Hc.
  change hostsPerLine with 8. change (HOST_SQUARE_SIZE + 5) with 30.
  change SIDE_BAR_WIDTH with 240.
  split.
  - intros sq Hsq. apply list_elem_of_lookup in Hsq as [k Hk].
    rewrite list_lookup_imap in Hk.
    destruct (hh !! k) as [host|] eqn:Hh; [|discriminate].
    apply lookup_lt_Some in Hh. injection Hk as <-.
    cbn [square_at sq_width sq_height sq_x sq_y].
    change hostsPerLine with 8. change (HOST_SQUARE_SIZE + 5) with 30.
    change HOST_SQUARE_SIZE with 25.
    repeat split; Z.div_mod_to_equations; lia.
  - intros i j a b Hij Ha Hb.
    rewrite list_lookup_imap in Ha, Hb.
    destruct (hh !! i) as [hi|]; [|discriminate].
    destruct (hh !! j) as [hj|]; [|discriminate].
    injection Ha as <-. injection Hb as <-.
    cbn [square_at sq_x sq_y].
    change hostsPerLine with 8. change (HOST_SQUARE_SIZE + 5) with 30.
    Z.div_mod_to_equations. lia.
Qed.

(** Nine hidden hosts among thirty. *)
Lemma nine_hidden_squares_fit :
  exists pg' gr,
    drawSideBar (thirty_hosts (numbered_hosts 9)) (window 1000) = Ok pg'
    /\ gr ∈ hidden_svg pg'
    /\ length (grid_squares gr) = 9%nat
    /\ (forall sq,
          sq ∈ grid_squares gr ->
          sq_width sq = 25 /\ sq_height sq = 25
          /\ 0 <= sq_x sq /\ sq_x sq + sq_width sq <= SIDE_BAR_WIDTH
          /\ 0 <= sq_y sq /\ sq_y sq + sq_height sq <= grid_height gr)
    /\ (forall (i j : nat) (a b : square),
          i <> j ->
          grid_squares gr !! i = Some a ->
          grid_squares gr !! j = Some b ->
          30 <= Z.abs (sq_x a - sq_x b) \/ 30 <= Z.abs (sq_y a - sq_y b)).
Proof.
  eexists _, _. split; [vm_compute; reflexivity|].
  split; [apply list_elem_of_singleton; reflexivity|].
  split; [reflexivity|].
  eapply (hidden_host_squares_fit_and_do_not_overlap
            (thirty_hosts (numbered_hosts 9)) (window 1000)).
  - vm_compute. reflexivity.
  - apply list_elem_of_singleton. reflexivity.
Defined.

Lemma hosts_of_squares (color : string -> string) (hh : list string) :
  sq_host <$> imap (square_at color) hh = hh.
Proof.
  apply list_eq. intros k.
  rewrite list_lookup_fmap, list_lookup_imap.
  destruct (hh !! k); reflexivity.
Qed.

(** X17: the grid [drawSideBar] draws has exactly one square for each host
    that some view hides, except a host called [__proto__], which gets none;
    it has no square for any other host; and each square is filled with the
    colour the host permutation gives its host. *)
Theorem hidden_host_squares_are_the_hidden_hosts
        (g : Global) (pg pg' : page) (gr : grid) :
  drawSideBar g pg = Ok pg' ->
  gr ∈ hidden_svg pg' ->
  NoDup (sq_host <$> grid_squares gr)
  /\ (forall host,
        host ∈ sq_host <$> grid_squares gr
        <-> host <> "__proto__"%string
            /\ exists view, view ∈ views g /\ host ∈ view_hiddenHosts view)
  /\ exists hp,
       hostPermutation g = Some hp
       /\ forall sq, sq ∈ grid_squares gr -> sq_fill sq = perm_color hp (sq_host sq).
Proof.
  rewrite drawSideBar_cases.
  destruct (decide (hidden_keys g = ∅)) as [E|E].
  { intros [= <-] Hgr. cbn in Hgr. apply elem_of_nil in Hgr. contradiction. }
  destruct (hostPermutation g) as [hp|]; [|discriminate].
  intros [= <-] Hgr. cbn [set_hidden hidden_svg] in Hgr.
  apply list_elem_of_singleton in Hgr. subst gr.
  cbn [grid_squares]. rewrite hosts_of_squares.
  split; [apply NoDup_Object_keys|]. split.
  - intros host.
    rewrite elem_of_Object_keys, elem_of_hidden_keys, elem_of_hidden_union.
    reflexivity.
  - exists hp. split; [reflexivity|].
    intros sq Hsq. apply list_elem_of_lookup in Hsq as [k Hk].
    rewrite list_lookup_imap in Hk.
    destruct (Object_keys (getHiddenHosts g) !! k); [|discriminate].
    injection Hk as <-. reflexivity.
Qed.

(** Both sample views hide [b], the second also [c]: two squares. *)
Lemma two_views_hidden_squares :
  exists pg' gr,
    drawSideBar two_views (window 1000) = Ok pg'
    /\ gr ∈ hidden_svg pg'
    /\ length (grid_squares gr) = 2%nat
    /\ NoDup (sq_host <$> grid_squares gr)
    /\ (forall host,
          host ∈ sq_host <$> grid_squares gr
          <-> host <> "__proto__"%string
              /\ exists view, view ∈ views two_views
                              /\ host ∈ view_hiddenHosts view)
    /\ exists hp,
         hostPermutation two_views = Some hp
         /\ forall sq, sq ∈ grid_squares gr -> sq_fill sq = perm_color hp (sq_host sq).
Proof.
  eexists _, _. split; [vm_compute; reflexivity|].
  split; [apply list_elem_of_singleton; reflexivity|].
  split; [reflexivity|].
  eapply (hidden_host_squares_are_the_hidden_hosts two_views (window 1000)).
  - vm_compute. reflexivity.
  - apply list_elem_of_singleton. reflexivity.
Defined.

End SideBarAgain.

(** ** drawAll *)

Section DrawAllProperties.

Import Visualization.
#[local] Open Scope float_scope.

Variable visual_height : View -> float.

Lemma concat_replicate_snoc {A} (l : list A) (k : nat) :
  concat (replicate (S k) l) = concat (replicate k l) ++ l.
Proof.
  induction k as [|k IH]; [cbn; rewrite app_nil_r; reflexivity|].
  change (l ++ concat (replicate (S k) l) = (l ++ concat (replicate k l)) ++ l).
  rewrite IH, app_assoc. reflexivity.
Qed.

Lemma columns_then_spacers (w : float) (k : nat) :
  concat (replicate k [log_column w; log_spacer]) ++ [log_column w]
  = log_column w :: concat (replicate k [log_spacer; log_column w]).
Proof.
  induction k as [|k IH]; [reflexivity|].
  cbn [replicate concat app]. rewrite IH. reflexivity.
Qed.

Lemma remove_last_spacer_of_row (w : float) (n : nat) :
  remove_last_spacer (concat (replicate n [log_column w; log_spacer]))
  = log_row w n.
Proof.
  destruct n as [|k]; [reflexivity|].
  rewrite concat_replicate_snoc. unfold remove_last_spacer.
  replace (concat (replicate k [log_column w; log_spacer])
             ++ [log_column w; log_spacer])
    with ((concat (replicate k [log_column w; log_spacer]) ++ [log_column w])
            ++ [log_spacer])
    by (rewrite <- app_assoc; reflexivity).
  rewrite last_snoc_some, removelast_last. apply columns_then_spacers.
Qed.

Lemma draw_views (w : float) (vs : list View) :
  forall cv : canvas,
    foldl (draw_view w) cv vs
    = {| log_cells := log_cells cv
                      ++ concat (replicate (length vs) [log_column w; log_spacer]);
         drawn_views := drawn_views cv ++ vs;
         vizContainer_height := vizContainer_height cv;
         svg_margin_right := svg_margin_right cv |}.
Proof.
  induction vs as [|v vs IH]; intros cv.
  - cbn. rewrite !app_nil_r. destruct cv; reflexivity.
  - cbn [foldl]. rewrite IH. unfold draw_view at 1 2 3 4. cbn.
    rewrite <- !app_assoc. reflexivity.
Qed.

Lemma resize_set_hidden (g : Global) (pg : page) (shown : bool) (svgs : list grid) :
  resize g (set_hidden shown svgs pg)
  = match resize g pg with
    | Ok (margin, g', pg') => Ok (margin, g', set_hidden shown svgs pg')
    | Throw e => Throw e
    end.
Proof. unfold resize. destruct (hostPermutation g); reflexivity. Qed.

Lemma drawSideBar_with_permutation (g : Global) (pg : page) (hp : HostPermutation) :
  hostPermutation g = Some hp ->
  exists shown svgs,
    drawSideBar g pg = Ok (set_hidden shown svgs pg)
    /\ forall shown' svgs',
         drawSideBar g (set_hidden shown' svgs' pg) = Ok (set_hidden shown svgs pg).
Proof.
  intros Hp. setoid_rewrite drawSideBar_cases. rewrite Hp.
  destruct (decide (hidden_keys g = ∅)); eexists _, _; split; reflexivity.
Qed.

Lemma drawAll_with_permutation
      (vs : list View) (hp : HostPermutation) (pg : page) (cv : canvas) :
  forall margin g1 pg1 shown svgs,
    resize {| views := vs; hostPermutation := Some hp |} pg = Ok (margin, g1, pg1) ->
    drawSideBar g1 pg1 = Ok (set_hidden shown svgs pg1) ->
    drawAll visual_height {| views := vs; hostPermutation := Some hp |} pg cv
    = Ok (g1, set_hidden shown svgs pg1,
          {| log_cells := log_row (logColWidth_for (length vs)) (length vs);
             drawn_views := views g1;
             vizContainer_height := Some auto;
             svg_margin_right := Some (margin * 2) |}).
Proof.
  intros margin g1 pg1 shown svgs R D.
  pose proof (resize_result_is_fixed vs hp pg _ _ _ R) as (_ & Hlen & _).
  unfold drawAll. rewrite R. cbv zeta. rewrite D, draw_views.
  cbn [log_cells drawn_views app views]. rewrite Hlen.
  rewrite remove_last_spacer_of_row. reflexivity.
Qed.

(** X15: [drawAll] throws exactly when no host permutation is set, and
    then a TypeError.  Otherwise it leaves the object as [resize] does and the
    document as [drawSideBar] does after that [resize]; every view has been
    drawn once, in list order and with the width [resize] gave it; the log
    table holds one column per view, each [(240 - 12 * (n - 1)) / n] points
    wide, with a spacer between neighbours and none at the end; the container
    height is back to [auto]; and the margin between drawings is twice the
    margin [resize] returned.  Nothing of the canvas drawn before remains. *)
Theorem drawAll_draws_every_view_or_throws
        (vs : list View) (permutation : option HostPermutation)
        (pg : page) (cv : canvas) :
  let g := {| views := vs; hostPermutation := permutation |} in
  match drawAll visual_height g pg cv with
  | Throw e => e = TypeError /\ permutation = None
  | Ok (g', pg', cv') =>
      exists hp margin pg1,
        permutation = Some hp
        /\ resize g pg = Ok (margin, g', pg1)
        /\ drawSideBar g' pg1 = Ok pg'
        /\ drawn_views cv' = views g'
        /\ log_cells cv' = log_row (logColWidth_for (length vs)) (length vs)
        /\ vizContainer_height cv' = Some auto
        /\ svg_margin_right cv' = Some (margin * 2)
  end.
Proof.
  intros g. subst g. destruct permutation as [hp|]; [|split; reflexivity].
  destruct (resize_succeeds vs hp pg) as (margin & g1 & pg1 & R).
  pose proof (resize_result_is_fixed vs hp pg _ _ _ R) as (_ & _ & _ & _ & Hp & _).
  destruct (drawSideBar_with_permutation g1 pg1 hp Hp) as (shown & svgs & D & _).
  rewrite (drawAll_with_permutation vs hp pg cv _ _ _ _ _ R D).
  exists hp, margin, pg1. repeat split; assumption.
Qed.

(** X16: a successful [drawAll] run again on what it left gives the same
    object, document and canvas again. *)
Theorem drawAll_twice_is_drawAll_once
        (g g' : Global) (pg pg' : page) (cv cv' : canvas) :
  drawAll visual_height g pg cv = Ok (g', pg', cv') ->
  drawAll visual_height g' pg' cv' = Ok (g', pg', cv').
Proof.
  destruct g as [vs [hp|]]; [|discriminate].
  destruct (resize_succeeds vs hp pg) as (margin & g1 & pg1 & R).
  pose proof (resize_result_is_fixed vs hp pg _ _ _ R)
    as (R2 & Hlen & _ & _ & Hp & _).
  destruct (drawSideBar_with_permutation g1 pg1 hp Hp) as (shown & svgs & D & D2).
  rewrite (drawAll_with_permutation vs hp pg cv _ _ _ _ _ R D).
  intros [= <- <- <-].
  destruct g1 as [vs1 hp1]. cbn [hostPermutation views] in *. subst hp1.
  rewrite (drawAll_with_permutation vs1 hp (set_hidden shown svgs pg1) _
             margin {| views := vs1; hostPermutation := Some hp |}
             (set_hidden shown svgs pg1) shown svgs).
  - rewrite Hlen. destruct pg1; reflexivity.
  - rewrite resize_set_hidden, R2. reflexivity.
  - rewrite (D2 shown svgs). destruct pg1; reflexivity.
Qed.

End DrawAllProperties.

(** Two views drawn over a stale canvas, every visual model 100 high. *)
Lemma drawAll_two_views_twice :
  exists g' pg' cv',
    Visualization.drawAll (fun _ => 100%float) Visualization.two_views
      (Visualization.window 1000) Visualization.stale_canvas
    = Ok (g', pg', cv')
    /\ Visualization.log_cells cv'
       = [Visualization.log_column 114; Visualization.log_spacer;
          Visualization.log_column 114]
    /\ Visualization.drawAll (fun _ => 100%float) g' pg' cv' = Ok (g', pg', cv').
Proof.
  eexists _, _, _. split; [vm_compute; reflexivity|].
  split; [reflexivity|].
  apply (drawAll_twice_is_drawAll_once (fun _ => 100%float)
           Visualization.two_views _ (Visualization.window 1000) _
           Visualization.stale_canvas).
  vm_compute. reflexivity.
Defined.
